(** * The mask-detection serving adapter ([serving_code.ipynb], class [TFModel])

    A shallow embedding of the four hooks of [TFModel] (and of its
    constructor) together with the parts of the Python run time, of PIL, of
    numpy and of Keras that the hooks call.  Python values are immutable
    here; a raised exception is the [Raise] case of [result]. *)

From Stdlib Require Import ZArith String Ascii List Lia Bool.
From Stdlib Require Import Floats.SpecFloat.
From stdpp Require Import base option gmap strings list pretty.
Import ListNotations.

Local Open Scope string_scope.
Local Open Scope list_scope.
Local Open Scope Z_scope.
Set Warnings "-register-all".

(** ** Exceptions and results *)

Module Py.

(** The exception classes that the modelled code can raise.  [Exception]
    carries its message, as the handler of [preprocess] builds one. *)
Inductive exn : Type :=
| ValueError
| KeyError
| TypeError
| AttributeError
| IndexError
| OSError
| OverflowError
| MemoryError
| Exception (msg : string).

Inductive result (A : Type) : Type :=
| Ok (a : A)
| Raise (e : exn).
Arguments Ok {A} a.
Arguments Raise {A} e.

Definition bind {A B} (r : result A) (k : A -> result B) : result B :=
  match r with
  | Ok a => k a
  | Raise e => Raise e
  end.

(** [try: r  except: h] with a bare [except], which catches everything. *)
Definition try_except {A} (r : result A) (h : result A) : result A :=
  match r with
  | Ok a => Ok a
  | Raise _ => h
  end.

Definition of_option {A} (e : exn) (o : option A) : result A :=
  match o with
  | Some a => Ok a
  | None => Raise e
  end.

Definition is_ok {A} (r : result A) : bool :=
  match r with Ok _ => true | Raise _ => false end.

(** [for x in l: acc = f acc x], stopping at the first exception. *)
Fixpoint for_each {A S} (f : S -> A -> result S) (l : list A) (acc : S)
  : result S :=
  match l with
  | [] => Ok acc
  | x :: l' => bind (f acc x) (for_each f l')
  end.

(** *** Python objects that a request body can hold

    [VFile] is a file-like object (an [io.BytesIO]) holding its content,
    read from its start; [VBytes] is a [bytes] object.  A [str] is a
    [string] whose characters are the code points below 256, a [bytes] one
    whose characters are its bytes.  A body is a value: every request
    brings its own objects. *)
Inductive value : Type :=
| VNone
| VBool (b : bool)
| VInt (z : Z)
| VStr (s : string)
| VBytes (s : string)
| VFile (content : string)
| VList (l : list value)
| VDict (d : list (string * value)).

(** The lines of a binary stream: each ends with its line feed, but for
    the last one when the content does not end with a line feed. *)
Fixpoint readlines_from (line : list ascii) (l : list ascii) : list string :=
  match l with
  | [] => match line with
          | [] => []
          | _ :: _ => [string_of_list_ascii (rev line)]
          end
  | c :: l' =>
      if (N_of_ascii c =? 10)%N
      then string_of_list_ascii (rev (c :: line)) :: readlines_from [] l'
      else readlines_from (c :: line) l'
  end.

Definition readlines (content : string) : list string :=
  readlines_from [] (list_ascii_of_string content).

(** [iter(v)]: the elements a [for] loop visits, [TypeError] when [v] is not
    iterable.  A [str] yields its one-character strings, a [bytes] its
    bytes as integers, a [dict] its keys, a file object its lines as
    [bytes]. *)
Definition iter (v : value) : result (list value) :=
  match v with
  | VList l => Ok l
  | VStr s => Ok (map (fun c => VStr (String c EmptyString)) (list_ascii_of_string s))
  | VBytes s => Ok (map (fun c => VInt (Z.of_N (N_of_ascii c))) (list_ascii_of_string s))
  | VDict d => Ok (map (fun kv => VStr (fst kv)) d)
  | VFile content => Ok (map VBytes (readlines content))
  | VNone | VBool _ | VInt _ => Raise TypeError
  end.

(** *** [int(s)] for a [str] argument, base 10 (CPython's
    [PyLong_FromUnicodeObject] and [PyLong_FromString]) *)

(** [Py_ISSPACE]: tab, line feed, vertical tab, form feed, carriage return
    and space. *)
Definition Py_ISSPACE (c : ascii) : bool :=
  let n := N_of_ascii c in
  ((9 <=? n) && (n <=? 13) || (n =? 32))%N.

(** [_PyUnicode_TransformDecimalAndSpaceToASCII] on code points below 256:
    those below 127 are kept, the two white-space characters U+0085 and
    U+00A0 become a space, every other one becomes [?] (there is no decimal
    digit between 127 and 255).  CPython cuts the string after the first
    [?]; as [?] is rejected wherever it stands, the rest is kept here. *)
Definition transform_char (c : ascii) : ascii :=
  let n := N_of_ascii c in
  if (n <? 127)%N then c
  else if ((n =? 133) || (n =? 160))%N then " "%char
  else "?"%char.

Definition digit_value (c : ascii) : option Z :=
  let n := N_of_ascii c in
  if ((48 <=? n) && (n <=? 57))%N then Some (Z.of_N n - 48) else None.

Definition is_underscore (c : ascii) : bool := (N_of_ascii c =? 95)%N.

Fixpoint skip_space (l : list ascii) : list ascii :=
  match l with
  | c :: l' => if Py_ISSPACE c then skip_space l' else l
  | [] => []
  end.

(** [sys.int_info.default_max_str_digits]: CPython (3.11, and 3.7 to 3.10
    since their security releases of 2022) refuses to convert a decimal
    string with more digits.  The limit can be set to 0 (none, as in older
    interpreters) or to any number above 640; every setting agrees with
    this model on the strings of at most 640 digits. *)
Definition max_str_digits : Z := 4300.

(** The digit loop of [PyLong_FromString]: digits with single underscores
    between them.  [prev] is the previous character (NUL at the start),
    [n] counts the digits read.  Returns the value, the count and the
    unread rest; [None] on a doubled or trailing underscore. *)
Fixpoint scan_digits (prev : ascii) (acc : Z) (n : nat) (l : list ascii)
  : option (Z * nat * list ascii) :=
  match l with
  | c :: l' =>
      if is_underscore c then
        if is_underscore prev then None else scan_digits c acc n l'
      else
        match digit_value c with
        | Some d => scan_digits c (10 * acc + d) (S n) l'
        | None => if is_underscore prev then None else Some (acc, n, l)
        end
  | [] => if is_underscore prev then None else Some (acc, n, [])
  end.

Definition PyLong_FromString (l : list ascii) : option Z :=
  let l := skip_space l in
  let '(negative, l) :=
    match l with
    | "+"%char :: l' => (false, l')
    | "-"%char :: l' => (true, l')
    | _ => (false, l)
    end in
  match l with
  | c :: _ => if is_underscore c then None else
      match scan_digits zero 0 0 l with
      | Some (v, S _ as digits, rest) =>
          if max_str_digits <? Z.of_nat digits then None else
          match skip_space rest with
          | [] => Some (if negative : bool then - v else v)
          | _ :: _ => None
          end
      | _ => None
      end
  | [] => None
  end.

(** [int(s)]: [None] stands for the [ValueError] that [int] raises. *)
Definition int (s : string) : option Z :=
  PyLong_FromString (map transform_char (list_ascii_of_string s)).

End Py.

(** A [result] is a monad; stdpp's [x ← e; k] and [mret] are used below. *)
#[global] Instance result_ret : MRet Py.result := @Py.Ok.
#[global] Instance result_bind : MBind Py.result := fun A B k r => Py.bind r k.

(** ** numpy *)

Module np.

(** A float: IEEE 754, with its zeros, infinities and NaN. *)
Abbreviation float := spec_float.

Definition isnan (x : float) : bool :=
  match x with S754_nan => true | _ => false end.

(** An [ndarray]: its shape and its elements in row-major order. *)
Record ndarray : Type := mk_ndarray {
  shape : list Z;
  data : list float
}.

Definition ndim (a : ndarray) : nat := length (shape a).

Definition prod (l : list Z) : Z := fold_right Z.mul 1 l.

(** What numpy maintains for every array it builds. *)
Definition wf (a : ndarray) : Prop :=
  Forall (fun d => 0 <= d) (shape a) /\
  length (data a) = Z.to_nat (prod (shape a)).

(** [np.expand_dims(a, axis=0)] *)
Definition expand_dims0 (a : ndarray) : ndarray :=
  {| shape := 1 :: shape a; data := data a |}.

(** [np.atleast_2d(a)] *)
Definition atleast_2d (a : ndarray) : ndarray :=
  match shape a with
  | [] => {| shape := [1; 1]; data := data a |}
  | [n] => {| shape := [1; n]; data := data a |}
  | _ :: _ :: _ => a
  end.

Definition shape_eqb (s1 s2 : list Z) : bool :=
  bool_decide (s1 = s2).

(** [np.concatenate(arrs, axis=0)]: [ValueError] on an empty sequence, on a
    zero-dimensional array, and when the arrays do not agree on every
    dimension but the first. *)
Definition concatenate0 (arrs : list ndarray) : Py.result ndarray :=
  match arrs with
  | [] => Py.Raise Py.ValueError
  | a :: _ =>
      match shape a with
      | [] => Py.Raise Py.ValueError
      | _ :: rest =>
          if forallb (fun b => match shape b with
                               | [] => false
                               | _ :: rest' => shape_eqb rest' rest
                               end) arrs
          then Py.Ok {| shape := fold_right Z.add 0 (map (fun b => hd 0 (shape b)) arrs) :: rest;
                        data := concat (map data arrs) |}
          else Py.Raise Py.ValueError
      end
  end.

(** [np.vstack(tup)] *)
Definition vstack (tup : list ndarray) : Py.result ndarray :=
  concatenate0 (map atleast_2d tup).

(** [a.tolist()[0]], kept as an array: the first item along axis 0.
    [tolist] of a zero-dimensional array is a number, which cannot be
    indexed ([TypeError]); an empty list has no item 0 ([IndexError]). *)
Definition tolist_item0 (a : ndarray) : Py.result ndarray :=
  match shape a with
  | [] => Py.Raise Py.TypeError
  | n :: rest =>
      if n <=? 0 then Py.Raise Py.IndexError
      else Py.Ok {| shape := rest; data := take (Z.to_nat (prod rest)) (data a) |}
  end.

(** [np.maximum] on two floats: [a] when [a >= b] or [a] is NaN, else [b];
    a NaN on either side comes out. *)
Definition maximum (a b : float) : float :=
  if SFleb b a || isnan a then a else b.

(** [np.max(a)] over all elements: [ValueError] on an array of size 0. *)
Definition max (a : ndarray) : Py.result float :=
  match data a with
  | [] => Py.Raise Py.ValueError
  | x :: l => Py.Ok (fold_left maximum l x)
  end.

(** [np.asarray(z, dtype='float32')] for an integer: the nearest float32. *)
Definition float32_of_Z (z : Z) : float := binary_normalize 24 128 z 0 false.

End np.

(** ** PIL images *)

Module PIL.

(** The image modes with one byte (or one bit) per band. *)
Inductive mode : Type :=
| Mode1 | ModeL | ModeP | ModeLA | ModeRGB | ModeRGBA | ModeCMYK
| ModeYCbCr | ModeLAB | ModeHSV.

(** [len(img.getbands())] *)
Definition bands (m : mode) : Z :=
  match m with
  | Mode1 | ModeL | ModeP => 1
  | ModeLA => 2
  | ModeRGB | ModeYCbCr | ModeLAB | ModeHSV => 3
  | ModeRGBA | ModeCMYK => 4
  end.

(** A decoded image: [size] is (width, height); [im] holds the band values
    pixel by pixel, row by row. *)
Record Image : Type := mk_Image {
  mode_of : mode;
  size : Z * Z;
  im : list Z
}.

End PIL.

(** ** What the adapter takes from its libraries

    The decoders and the resampling filter of PIL, [json.loads], [str] of a
    request body, the model store of [mlrun.runtimes.MLModelServer] and
    Keras' [load_model] are not part of the notebook; the adapter is
    verified for any of them.  A predictor is a function from its inputs to
    its output or to an exception. *)

Abbreviation file_system := (gmap string string).

Definition Predictor : Type := list np.ndarray -> Py.result np.ndarray.

Class Libraries : Type := {
  (** the image that a file's content decodes to, if it is an image *)
  Image_decode : string -> option PIL.Image;
  (** the pixels of an image resampled to a (width, height) *)
  Image_resample : PIL.Image -> Z * Z -> list Z;
  (** whether PIL can allocate the image resampled to a (width, height):
      the limits of its storage on the length of a line and on the whole,
      and the memory at hand *)
  Image_fits : PIL.Image -> Z * Z -> bool;
  (** [json.loads] *)
  json_loads : string -> option Py.value;
  (** [str(body)], as the f-string of [preprocess] formats the body *)
  dict_str : gmap string Py.value -> string;
  (** [MLModelServer.get_model(suffix)] for a model directory *)
  get_model : file_system -> string -> string -> Py.result (string * Py.value);
  (** [keras.models.load_model(path)] *)
  load_model : file_system -> string -> Py.result Predictor
}.

Section Adapter.
Context `{Libraries}.

(** *** [PIL.Image.open] and [Image.resize] *)

(** [Image.open(fp)]: a [str] or a [bytes] is a file name, opened in the
    file system; a file-like object is read, from its start (PIL rewinds
    it).  Anything else has no [read] method.  A file
    that is missing or that no decoder accepts gives an [OSError].  PIL
    decodes the pixels lazily, at the latest in [resize]; the failure is
    reported here, within the same [try] of [preprocess]. *)
Definition Image_open (fs : file_system) (fp : Py.value) : Py.result PIL.Image :=
  match fp with
  | Py.VStr filename =>
      content ← Py.of_option Py.OSError (fs !! filename);
      Py.of_option Py.OSError (Image_decode content)
  | Py.VBytes filename =>
      content ← Py.of_option Py.OSError (fs !! filename);
      Py.of_option Py.OSError (Image_decode content)
  | Py.VFile content => Py.of_option Py.OSError (Image_decode content)
  | Py.VNone | Py.VBool _ | Py.VInt _ | Py.VList _ | Py.VDict _ =>
      Py.Raise Py.AttributeError
  end.

(** The sizes that fit the C [int] that PIL's [resize] takes. *)
Definition fits_C_int (z : Z) : bool := (- 2 ^ 31 <=? z) && (z <? 2 ^ 31).

(** [img.resize(size)]: a copy when the size is the image's own; an
    [OverflowError] when the width or the height does not fit a C [int]; a
    [ValueError] when one of them is below 1; a [MemoryError] when PIL
    cannot allocate the result; else the image resampled. *)
Definition Image_resize (img : PIL.Image) (size : Z * Z) : Py.result PIL.Image :=
  if bool_decide (PIL.size img = size) then Py.Ok img
  else if negb (fits_C_int (fst size) && fits_C_int (snd size))
       then Py.Raise Py.OverflowError
  else if (fst size <? 1) || (snd size <? 1) then Py.Raise Py.ValueError
  else if negb (Image_fits img size) then Py.Raise Py.MemoryError
  else Py.Ok {| PIL.mode_of := PIL.mode_of img;
                PIL.size := size;
                PIL.im := Image_resample img size |}.

(** *** [keras.preprocessing.image.img_to_array]

    The float32 array of shape (height, width, bands) of the image, in
    Keras' default [channels_last] layout; an image of one band, which
    numpy sees as two-dimensional, is reshaped to (height, width, 1). *)
Definition img_to_array (img : PIL.Image) : np.ndarray :=
  {| np.shape := [snd (PIL.size img); fst (PIL.size img); PIL.bands (PIL.mode_of img)];
     np.data := map np.float32_of_Z (PIL.im img) |}.

(** *** The adapter *)

(** The attributes of a [TFModel].  [classes] is a Python object, [VNone]
    for [None]; [model] is [None] until [load] has set the attribute. *)
Record TFModel : Type := mk_TFModel {
  name : string;
  model_dir : string;
  IMAGE_WIDTH : Z;
  IMAGE_HEIGHT : Z;
  classes : Py.value;
  model : option Predictor
}.

(** [environ.get(key, default)] *)
Definition environ_get (environ : gmap string string) (key default : string)
  : string :=
  match environ !! key with
  | Some v => v
  | None => default
  end.

(** [with open(environ['classes_map'], 'r') as f: json.load(f)] *)
Definition load_classes (environ : gmap string string) (fs : file_system)
  : Py.result Py.value :=
  path ← Py.of_option Py.KeyError (environ !! "classes_map");
  content ← Py.of_option Py.OSError (fs !! path);
  Py.of_option Py.ValueError (json_loads content).

(** [TFModel.__init__(self, name, model_dir)] *)
Definition __init__ (environ : gmap string string) (fs : file_system)
    (name model_dir : string) : Py.result TFModel :=
  width ← Py.of_option Py.ValueError (Py.int (environ_get environ "IMAGE_WIDTH" "128"));
  height ← Py.of_option Py.ValueError (Py.int (environ_get environ "IMAGE_HEIGHT" "128"));
  classes ← Py.try_except (load_classes environ fs) (Py.Ok Py.VNone);
  mret {| name := name; model_dir := model_dir;
          IMAGE_WIDTH := width; IMAGE_HEIGHT := height;
          classes := classes; model := None |}.

(** [TFModel.load(self)]: the adapter with its [model] attribute set. *)
Definition load (self : TFModel) (fs : file_system) : Py.result TFModel :=
  '(model_file, extra_data) ← get_model fs (model_dir self) ".h5";
  m ← load_model fs model_file;
  mret {| name := name self; model_dir := model_dir self;
          IMAGE_WIDTH := IMAGE_WIDTH self; IMAGE_HEIGHT := IMAGE_HEIGHT self;
          classes := classes self; model := Some m |}.

(** [output['instances'].append(x)] *)
Definition append_instance (output : gmap string (list np.ndarray))
    (x : np.ndarray) : Py.result (gmap string (list np.ndarray)) :=
  l ← Py.of_option Py.KeyError (output !! "instances");
  mret (<["instances" := l ++ [x]]> output).

(** The body of the [for] loop of [preprocess]. *)
Definition preprocess_step (self : TFModel) (fs : file_system)
    (output : gmap string (list np.ndarray)) (byte_image : Py.value)
  : Py.result (gmap string (list np.ndarray)) :=
  img ← Image_open fs byte_image;
  img ← Image_resize img (IMAGE_WIDTH self, IMAGE_HEIGHT self);
  let x := img_to_array img in
  let x := np.expand_dims0 x in
  append_instance output x.

(** The [try] block of [preprocess]. *)
Definition preprocess_try (self : TFModel) (fs : file_system)
    (body : gmap string Py.value) : Py.result (gmap string (list np.ndarray)) :=
  let output : gmap string (list np.ndarray) := {["instances" := []]} in
  let instances := default (Py.VList []) (body !! "instances") in
  items ← Py.iter instances;
  output ← Py.for_each (preprocess_step self fs) items output;
  l ← Py.of_option Py.KeyError (output !! "instances");
  stacked ← np.vstack l;
  mret (<["instances" := [stacked]]> output).

(** The message of the exception of [preprocess]: [f'received: {body}'] *)
Definition received (body : gmap string Py.value) : string :=
  String.append "received: " (dict_str body).

(** [TFModel.preprocess(self, body)] *)
Definition preprocess (self : TFModel) (fs : file_system)
    (body : gmap string Py.value) : Py.result (gmap string (list np.ndarray)) :=
  Py.try_except (preprocess_try self fs body)
                (Py.Raise (Py.Exception (received body))).

(** [TFModel.predict(self, data)]; [self.model] is an [AttributeError]
    before [load]. *)
Definition predict (self : TFModel) (data : gmap string (list np.ndarray))
  : Py.result np.ndarray :=
  let images := default [] (data !! "instances") in
  m ← Py.of_option Py.AttributeError (model self);
  let predicted_probability := m images in
  predicted_probability.

(** [TFModel.postprocess(self, predicted_probability)] *)
Definition postprocess (self : TFModel) (predicted_probability : np.ndarray)
  : Py.result (gmap string np.float) :=
  row ← np.tolist_item0 predicted_probability;
  predicted_probabilities ← np.max row;
  mret {["Mask probability" := predicted_probabilities]}.

(** One request: body → preprocess → predict → postprocess → response. *)
Definition handle (self : TFModel) (fs : file_system)
    (body : gmap string Py.value) : Py.result (gmap string np.float) :=
  data ← preprocess self fs body;
  predicted_probability ← predict self data;
  postprocess self predicted_probability.

End Adapter.

(** ** The hooks as methods

    A Python method runs on its object [self]: it reads and may assign the
    attributes, and it returns or raises; an assignment made before an
    exception stays.  The hooks are embedded once more in this form,
    statement by statement, to state what running them does to the adapter
    that serves the next request. *)

Section Methods.
Context `{Libraries}.

Definition method (A : Type) : Type := TFModel -> Py.result A * TFModel.

Definition method_ret {A} (a : A) : method A := fun self => (Py.Ok a, self).

Definition method_bind {A B} (c : method A) (k : A -> method B) : method B :=
  fun self =>
    match c self with
    | (Py.Ok a, self') => k a self'
    | (Py.Raise e, self') => (Py.Raise e, self')
    end.

#[local] Instance method_mret : MRet method := @method_ret.
#[local] Instance method_mbind : MBind method := fun A B k c => method_bind c k.

(** A call that has no access to [self]. *)
Definition call {A} (r : Py.result A) : method A := fun self => (r, self).

(** [self.attr] *)
Definition getattr {A} (attr : TFModel -> A) : method A :=
  fun self => (Py.Ok (attr self), self).

(** [self.model = m] *)
Definition set_model (m : Predictor) : method unit :=
  fun self =>
    (Py.Ok tt,
     {| name := name self; model_dir := model_dir self;
        IMAGE_WIDTH := IMAGE_WIDTH self; IMAGE_HEIGHT := IMAGE_HEIGHT self;
        classes := classes self; model := Some m |}).

(** [try: c  except: h] *)
Definition method_try_except {A} (c h : method A) : method A :=
  fun self =>
    match c self with
    | (Py.Ok a, self') => (Py.Ok a, self')
    | (Py.Raise _, self') => h self'
    end.

(** [for x in l: acc = f acc x] *)
Fixpoint method_for_each {A S} (f : S -> A -> method S) (l : list A) (acc : S)
  : method S :=
  match l with
  | [] => method_ret acc
  | x :: l' => method_bind (f acc x) (method_for_each f l')
  end.

(** [TFModel.load(self)] *)
Definition load_method (fs : file_system) : method unit :=
  dir ← getattr model_dir;
  '(model_file, extra_data) ← call (get_model fs dir ".h5");
  m ← call (load_model fs model_file);
  set_model m.

(** [TFModel.preprocess(self, body)] *)
Definition preprocess_method (fs : file_system) (body : gmap string Py.value)
  : method (gmap string (list np.ndarray)) :=
  method_try_except
    (let output : gmap string (list np.ndarray) := {["instances" := []]} in
     let instances := default (Py.VList []) (body !! "instances") in
     items ← call (Py.iter instances);
     output ← method_for_each
       (fun output byte_image =>
          img ← call (Image_open fs byte_image);
          width ← getattr IMAGE_WIDTH;
          height ← getattr IMAGE_HEIGHT;
          img ← call (Image_resize img (width, height));
          let x := img_to_array img in
          let x := np.expand_dims0 x in
          call (append_instance output x))
       items output;
     l ← call (Py.of_option Py.KeyError (output !! "instances"));
     stacked ← call (np.vstack l);
     mret (<["instances" := [stacked]]> output))
    (call (Py.Raise (Py.Exception (received body)))).

(** [TFModel.predict(self, data)] *)
Definition predict_method (data : gmap string (list np.ndarray))
  : method np.ndarray :=
  let images := default [] (data !! "instances") in
  m ← getattr model;
  m ← call (Py.of_option Py.AttributeError m);
  call (m images).

(** [TFModel.postprocess(self, predicted_probability)] *)
Definition postprocess_method (predicted_probability : np.ndarray)
  : method (gmap string np.float) :=
  row ← call (np.tolist_item0 predicted_probability);
  predicted_probabilities ← call (np.max row);
  mret {["Mask probability" := predicted_probabilities]}.

(** One request run on the adapter. *)
Definition handle_method (fs : file_system) (body : gmap string Py.value)
  : method (gmap string np.float) :=
  data ← preprocess_method fs body;
  predicted_probability ← predict_method data;
  postprocess_method predicted_probability.

(** The requests [bodies] run one after the other on the same adapter:
    their responses, and the adapter afterwards. *)
Fixpoint serve (fs : file_system) (bodies : list (gmap string Py.value))
    (self : TFModel)
  : list (Py.result (gmap string np.float)) * TFModel :=
  match bodies with
  | [] => ([], self)
  | body :: bodies' =>
      let '(response, self') := handle_method fs body self in
      let '(responses, self'') := serve fs bodies' self' in
      (response :: responses, self'')
  end.

End Methods.

(** ** Vocabulary of the statements *)

(** [m] is a greatest element of [l]. *)
Definition is_max (l : list np.float) (m : np.float) : Prop :=
  m ∈ l /\ forall x, x ∈ l -> SFleb x m = true.

(** Row [i] of a two-dimensional array. *)
Definition row (a : np.ndarray) (i : nat) : list np.float :=
  match np.shape a with
  | [_; k] => take (Z.to_nat k) (drop (i * Z.to_nat k) (np.data a))
  | _ => []
  end.

(** A decimal numeral: the string of the digits [ds], most significant
    first, and the number it denotes. *)
Definition digit_char (d : Z) : ascii := ascii_of_N (Z.to_N (48 + d)).

Definition numeral (ds : list Z) : string :=
  string_of_list_ascii (map digit_char ds).

Definition numeral_value (ds : list Z) : Z :=
  fold_left (fun acc d => 10 * acc + d) ds 0.

(** The elements of the first item of an array along axis 0 (of its first
    row, for a two-dimensional array). *)
Definition first_item (a : np.ndarray) : list np.float :=
  take (Z.to_nat (np.prod (tail (np.shape a)))) (np.data a).

(** What PIL maintains for every image: non-negative sizes and one value
    per band and pixel. *)
Definition image_wf (img : PIL.Image) : Prop :=
  0 <= fst (PIL.size img) /\ 0 <= snd (PIL.size img) /\
  Z.of_nat (length (PIL.im img))
  = fst (PIL.size img) * snd (PIL.size img) * PIL.bands (PIL.mode_of img).

(** [needle] occurs in [s]. *)
Definition occurs_in (needle s : string) : Prop :=
  exists before after, s = String.append before (String.append needle after).

Section AdapterVocabulary.
Context `{Libraries}.

(** The value [v] that [__init__] reads for the size parameter [key]: 128
    when the variable is unset, else the integer its string denotes. *)
Definition setting (environ : gmap string string) (key : string) (v : Z) : Prop :=
  match environ !! key with
  | None => v = 128
  | Some s => Py.int s = Some v
  end.

(** The variable [classes_map] is unset, or names no file, or names a file
    that is not JSON. *)
Definition classes_unavailable (environ : gmap string string)
    (fs : file_system) : Prop :=
  match environ !! "classes_map" with
  | None => True
  | Some path =>
      match fs !! path with
      | None => True
      | Some content => json_loads content = None
      end
  end.

(** An instance that [Image.open] rejects. *)
Definition malformed (fs : file_system) (v : Py.value) : Prop :=
  Py.is_ok (Image_open fs v) = false.

(** The array that one instance of the batch contributes. *)
Definition prepare (self : TFModel) (fs : file_system) (v : Py.value)
  : Py.result np.ndarray :=
  img ← Image_open fs v;
  img ← Image_resize img (IMAGE_WIDTH self, IMAGE_HEIGHT self);
  mret (np.expand_dims0 (img_to_array img)).

End AdapterVocabulary.

(** ** A small instance of the libraries, to run the adapter on

    Two one-pixel images, a grey one and a coloured one, stand for PIL's
    decoders; resampling repeats the first band value; the predictor scores
    every input alike. *)

Module Demo.

Definition grey : PIL.Image :=
  {| PIL.mode_of := PIL.ModeL; PIL.size := (1, 1); PIL.im := [200] |}.

Definition colour : PIL.Image :=
  {| PIL.mode_of := PIL.ModeRGB; PIL.size := (1, 1); PIL.im := [10; 20; 30] |}.

Definition decode (content : string) : option PIL.Image :=
  if String.eqb content "grey" then Some grey
  else if String.eqb content "colour" then Some colour
  else None.

Definition resample (img : PIL.Image) (size : Z * Z) : list Z :=
  repeat (hd 0 (PIL.im img))
         (Z.to_nat (fst size * snd size * PIL.bands (PIL.mode_of img))).

Definition loads (content : string) : option Py.value :=
  if String.eqb content "null" then Some Py.VNone
  else if String.eqb content "{}" then Some (Py.VDict [])
  else None.

(** [repr] of a Python object, and [str] of a body, in Python's layout. *)
Fixpoint repr (v : Py.value) : string :=
  match v with
  | Py.VNone => "None"
  | Py.VBool b => if b then "True" else "False"
  | Py.VInt z => pretty z
  | Py.VStr s => String.append "'" (String.append s "'")
  | Py.VBytes s => String.append "b'" (String.append s "'")
  | Py.VFile _ => "<_io.BytesIO object>"
  | Py.VList l => String.append "[" (String.append (String.concat ", " (map repr l)) "]")
  | Py.VDict d =>
      String.append "{"
        (String.append
           (String.concat ", "
              (map (fun kv => String.append "'" (String.append (fst kv)
                                (String.append "': " (repr (snd kv))))) d))
           "}")
  end.

Definition str (body : gmap string Py.value) : string :=
  repr (Py.VDict (map_to_list body)).

(** The binary64 numbers written 0.1, 0.3, 0.5 and 0.9 in Python. *)
Definition f0_1 : np.float := S754_finite false 7205759403792794 (-56).
Definition f0_3 : np.float := S754_finite false 5404319552844595 (-54).
Definition f0_5 : np.float := S754_finite false 4503599627370496 (-53).
Definition f0_9 : np.float := S754_finite false 8106479329266893 (-53).

Definition scores : np.ndarray :=
  {| np.shape := [1; 3]; np.data := [f0_1; f0_9; f0_3] |}.

Definition predictor : Predictor := fun _ => Py.Ok scores.

#[local] Instance libraries : Libraries := {|
  Image_decode := decode;
  Image_resample := resample;
  Image_fits := fun _ size => fst size * snd size <=? 2 ^ 24;
  json_loads := loads;
  dict_str := str;
  get_model := fun _ dir suffix => Py.Ok (String.append dir suffix, Py.VNone);
  load_model := fun _ _ => Py.Ok predictor
|}.

(** A loaded adapter with the default sizes. *)
Definition adapter : TFModel :=
  {| name := "mask"; model_dir := "models"; IMAGE_WIDTH := 128;
     IMAGE_HEIGHT := 128; classes := Py.VNone; model := Some predictor |}.

Definition adapter_2x3 : TFModel :=
  {| name := "mask"; model_dir := "models"; IMAGE_WIDTH := 2;
     IMAGE_HEIGHT := 3; classes := Py.VNone; model := Some predictor |}.

Definition body_of (instances : list Py.value) : gmap string Py.value :=
  {["instances" := Py.VList instances]}.

End Demo.


(** * Properties of the embedded code *)

(** ** The order on floats and [np.max] *)

Section FloatOrder.

Lemma SFleb_refl (a : np.float) : np.isnan a = false -> SFleb a a = true.
Proof.
  unfold SFleb, SFcompare.
  destruct a as [s|s| |s m e]; try destruct s; simpl; try done.
  all: rewrite Z.compare_refl, Pos.compare_cont_refl; done.
Qed.

Lemma SFleb_not_nan (a b : np.float) :
  SFleb a b = true -> np.isnan a = false /\ np.isnan b = false.
Proof. destruct a, b; simpl; done. Qed.

Ltac compare_cases :=
  repeat match goal with
    | |- context [Z.compare ?x ?y] => destruct (Z.compare_spec x y)
    | |- context [Pos.compare_cont Eq ?x ?y] =>
        change (Pos.compare_cont Eq x y) with (Pos.compare x y);
        destruct (Pos.compare_spec x y)
    end; simpl; try done; try lia.

Lemma SFleb_total (a b : np.float) :
  np.isnan a = false -> np.isnan b = false ->
  SFleb b a = false -> SFleb a b = true.
Proof.
  unfold SFleb, SFcompare.
  destruct a as [sa|sa| |sa ma ea], b as [sb|sb| |sb mb eb]; simpl; try done;
    try destruct sa; try destruct sb; simpl; try done; intros _ _;
    compare_cases.
Qed.

Lemma SFleb_trans (a b c : np.float) :
  SFleb a b = true -> SFleb b c = true -> SFleb a c = true.
Proof.
  unfold SFleb, SFcompare.
  destruct a as [sa|sa| |sa ma ea], b as [sb|sb| |sb mb eb],
           c as [sc|sc| |sc mc ec]; simpl; try done;
    try destruct sa; try destruct sb; try destruct sc; simpl; try done;
    compare_cases.
Qed.

End FloatOrder.

Section NpMax.

Lemma maximum_cases (a b : np.float) :
  np.maximum a b = a \/ np.maximum a b = b.
Proof. unfold np.maximum. destruct (SFleb b a || np.isnan a); auto. Qed.

Lemma maximum_upper (a b : np.float) :
  np.isnan a = false -> np.isnan b = false ->
  np.isnan (np.maximum a b) = false /\
  SFleb a (np.maximum a b) = true /\ SFleb b (np.maximum a b) = true.
Proof.
  intros Ha Hb. unfold np.maximum. rewrite Ha, orb_false_r.
  destruct (SFleb b a) eqn:Hba.
  - auto using SFleb_refl.
  - auto using SFleb_refl, SFleb_total.
Qed.

Lemma fold_maximum_elem (l : list np.float) (x : np.float) :
  fold_left np.maximum l x ∈ x :: l.
Proof.
  revert x. induction l as [|y l IH]; intros x; simpl.
  - apply list_elem_of_here.
  - specialize (IH (np.maximum x y)).
    destruct (maximum_cases x y) as [E|E]; rewrite E in IH |- *.
    + apply elem_of_cons in IH as [->|IH].
      * apply list_elem_of_here.
      * by do 2 apply list_elem_of_further.
    + by apply list_elem_of_further.
Qed.

Lemma fold_maximum_upper (l : list np.float) (x : np.float) :
  np.isnan x = false ->
  Forall (fun y => np.isnan y = false) l ->
  forall y, y ∈ x :: l -> SFleb y (fold_left np.maximum l x) = true.
Proof.
  revert x. induction l as [|z l IH]; intros x Hx Hl y Hy; simpl.
  - apply list_elem_of_singleton in Hy as ->. by apply SFleb_refl.
  - inversion Hl as [|? ? Hz Hl']; subst.
    destruct (maximum_upper x z Hx Hz) as (Hn & Hxm & Hzm).
    assert (Hm : SFleb (np.maximum x z) (fold_left np.maximum l (np.maximum x z)) = true)
      by (apply IH; [done | done | apply list_elem_of_here]).
    apply elem_of_cons in Hy as [->|Hy]; [by eapply SFleb_trans|].
    apply elem_of_cons in Hy as [->|Hy]; [by eapply SFleb_trans|].
    apply IH; [done | done | by apply list_elem_of_further].
Qed.

(** A NaN among the elements comes out of the reduction. *)
Lemma fold_maximum_nan (l : list np.float) (x : np.float) :
  S754_nan ∈ x :: l -> fold_left np.maximum l x = S754_nan.
Proof.
  revert x. induction l as [|z l IH]; intros x Hin; simpl.
  - by apply list_elem_of_singleton in Hin.
  - apply IH. apply elem_of_cons in Hin as [<-|Hin].
    + unfold np.maximum. simpl. rewrite orb_true_r. apply list_elem_of_here.
    + apply elem_of_cons in Hin as [<-|Hin].
      * unfold np.maximum. destruct x; apply list_elem_of_here.
      * by apply list_elem_of_further.
Qed.

Lemma max_is_max (a : np.ndarray) :
  np.data a <> [] ->
  Forall (fun y => np.isnan y = false) (np.data a) ->
  exists m, np.max a = Py.Ok m /\ is_max (np.data a) m.
Proof.
  unfold np.max. destruct (np.data a) as [|x l]; [done|].
  intros _ Hall. inversion Hall; subst.
  eexists; split; [done|]. split.
  - apply fold_maximum_elem.
  - by apply fold_maximum_upper.
Qed.

End NpMax.

(** ** [int] on decimal numerals *)

Section IntNumerals.

Lemma digit_cases (d : Z) :
  0 <= d <= 9 ->
  d = 0 \/ d = 1 \/ d = 2 \/ d = 3 \/ d = 4 \/ d = 5 \/ d = 6 \/ d = 7 \/
  d = 8 \/ d = 9.
Proof. lia. Qed.

Lemma digit_char_facts (d : Z) :
  0 <= d <= 9 ->
  Py.transform_char (digit_char d) = digit_char d /\
  Py.Py_ISSPACE (digit_char d) = false /\
  Py.is_underscore (digit_char d) = false /\
  Py.digit_value (digit_char d) = Some d.
Proof.
  intros Hd. destruct (digit_cases d Hd) as [->|[->|[->|[->|[->|[->|[->|[->|[->| ->]]]]]]]]];
    repeat split; reflexivity.
Qed.

Lemma transform_digits (ds : list Z) :
  Forall (fun d => 0 <= d <= 9) ds ->
  map Py.transform_char (map digit_char ds) = map digit_char ds.
Proof.
  induction 1 as [|d ds Hd _ IH]; simpl; [done|].
  rewrite IH. by destruct (digit_char_facts d Hd) as (-> & _).
Qed.

Lemma scan_digits_numeral (ds : list Z) (prev : ascii) (acc : Z) (n : nat) :
  Forall (fun d => 0 <= d <= 9) ds ->
  Py.is_underscore prev = false ->
  Py.scan_digits prev acc n (map digit_char ds)
  = Some (fold_left (fun a d => 10 * a + d) ds acc, (n + length ds)%nat, []).
Proof.
  intros Hds. revert prev acc n.
  induction Hds as [|d ds Hd _ IH]; intros prev acc n Hprev; simpl.
  - rewrite Hprev. by rewrite Nat.add_0_r.
  - destruct (digit_char_facts d Hd) as (_ & _ & Hu & Hv).
    rewrite Hu, Hv, IH by done. do 3 f_equal. lia.
Qed.

(** [int] reads a non-empty string of decimal digits, of at most
    [max_str_digits] digits, as the number it denotes. *)
Lemma int_numeral (ds : list Z) :
  ds <> [] ->
  Z.of_nat (length ds) <= Py.max_str_digits ->
  Forall (fun d => 0 <= d <= 9) ds ->
  Py.int (numeral ds) = Some (numeral_value ds).
Proof.
  intros Hne Hlen Hds. unfold Py.int, numeral, numeral_value.
  rewrite list_ascii_of_string_of_list_ascii, transform_digits by done.
  destruct ds as [|d ds]; [done|]. clear Hne.
  unfold Py.PyLong_FromString.
  pose proof (scan_digits_numeral (d :: ds) zero 0 0 Hds eq_refl) as Hscan.
  inversion Hds as [|? ? Hd Hds']; subst.
  destruct (digit_char_facts d Hd) as (_ & Hsp & Hu & _).
  change (map digit_char (d :: ds)) with (digit_char d :: map digit_char ds) in *.
  cbn [Py.skip_space]. rewrite Hsp.
  assert (Hsign : (match digit_char d :: map digit_char ds with
                   | "+"%char :: l' => (false, l')
                   | "-"%char :: l' => (true, l')
                   | _ => (false, digit_char d :: map digit_char ds)
                   end) = (false, digit_char d :: map digit_char ds)).
  { destruct (digit_cases d Hd) as [->|[->|[->|[->|[->|[->|[->|[->|[->| ->]]]]]]]]];
      reflexivity. }
  rewrite Hsign, Hu, Hscan.
  change (0 + length (d :: ds))%nat with (S (length ds)).
  change (length (d :: ds)) with (S (length ds)) in Hlen.
  destruct (Z.ltb_spec Py.max_str_digits (Z.of_nat (S (length ds)))); [lia|].
  reflexivity.
Qed.

(** A numeral with more digits is refused. *)
Lemma int_numeral_too_long (ds : list Z) :
  Py.max_str_digits < Z.of_nat (length ds) ->
  Forall (fun d => 0 <= d <= 9) ds ->
  Py.int (numeral ds) = None.
Proof.
  intros Hlen Hds. unfold Py.int, numeral.
  rewrite list_ascii_of_string_of_list_ascii, transform_digits by done.
  destruct ds as [|d ds]; [done|].
  unfold Py.PyLong_FromString.
  pose proof (scan_digits_numeral (d :: ds) zero 0 0 Hds eq_refl) as Hscan.
  inversion Hds as [|? ? Hd Hds']; subst.
  destruct (digit_char_facts d Hd) as (_ & Hsp & Hu & _).
  change (map digit_char (d :: ds)) with (digit_char d :: map digit_char ds) in *.
  cbn [Py.skip_space]. rewrite Hsp.
  assert (Hsign : (match digit_char d :: map digit_char ds with
                   | "+"%char :: l' => (false, l')
                   | "-"%char :: l' => (true, l')
                   | _ => (false, digit_char d :: map digit_char ds)
                   end) = (false, digit_char d :: map digit_char ds)).
  { destruct (digit_cases d Hd) as [->|[->|[->|[->|[->|[->|[->|[->|[->| ->]]]]]]]]];
      reflexivity. }
  rewrite Hsign, Hu, Hscan.
  change (0 + length (d :: ds))%nat with (S (length ds)).
  change (length (d :: ds)) with (S (length ds)) in Hlen.
  destruct (Z.ltb_spec Py.max_str_digits (Z.of_nat (S (length ds)))); [done|lia].
Qed.

End IntNumerals.

(** ** The adapter *)

Section AdapterFacts.
Context `{Libraries}.

(** *** [__init__] *)

Lemma environ_get_setting (environ : gmap string string) (key : string) (v : Z) :
  setting environ key v -> Py.int (environ_get environ key "128") = Some v.
Proof.
  unfold setting, environ_get. destruct (environ !! key); [done|].
  by intros ->.
Qed.

Lemma load_classes_unavailable (environ : gmap string string) (fs : file_system) :
  classes_unavailable environ fs -> Py.is_ok (load_classes environ fs) = false.
Proof.
  unfold classes_unavailable, load_classes.
  destruct (environ !! "classes_map") as [path|]; simpl; [|done].
  destruct (fs !! path) as [content|]; simpl; [|done].
  by intros ->.
Qed.

Lemma init_with_settings (environ : gmap string string) (fs : file_system)
    (n d : string) (w h : Z) :
  setting environ "IMAGE_WIDTH" w -> setting environ "IMAGE_HEIGHT" h ->
  exists c, __init__ environ fs n d
            = Py.Ok {| name := n; model_dir := d; IMAGE_WIDTH := w;
                       IMAGE_HEIGHT := h; classes := c; model := None |}
            /\ Py.try_except (load_classes environ fs) (Py.Ok Py.VNone) = Py.Ok c.
Proof.
  intros Hw Hh. unfold __init__.
  rewrite (environ_get_setting _ _ _ Hw), (environ_get_setting _ _ _ Hh). simpl.
  destruct (load_classes environ fs) as [c|e]; simpl; eauto.
Qed.

(** C9. With [IMAGE_WIDTH] and [IMAGE_HEIGHT] unset, [__init__] sets both
    size parameters to 128; with both set to strings that [int] reads as the
    integers [w] and [h], it sets them to [w] and [h]. *)
Theorem init_reads_sizes (environ : gmap string string) (fs : file_system)
    (n d : string) :
  (environ !! "IMAGE_WIDTH" = None -> environ !! "IMAGE_HEIGHT" = None ->
   exists self, __init__ environ fs n d = Py.Ok self /\
                IMAGE_WIDTH self = 128 /\ IMAGE_HEIGHT self = 128) /\
  (forall sw sh w h,
   environ !! "IMAGE_WIDTH" = Some sw -> environ !! "IMAGE_HEIGHT" = Some sh ->
   Py.int sw = Some w -> Py.int sh = Some h ->
   exists self, __init__ environ fs n d = Py.Ok self /\
                IMAGE_WIDTH self = w /\ IMAGE_HEIGHT self = h).
Proof.
  split.
  - intros Hw Hh.
    destruct (init_with_settings environ fs n d 128 128) as (c & -> & _).
    + unfold setting. by rewrite Hw.
    + unfold setting. by rewrite Hh.
    + eauto.
  - intros sw sh w h Hw Hh Hsw Hsh.
    destruct (init_with_settings environ fs n d w h) as (c & -> & _).
    + unfold setting. by rewrite Hw.
    + unfold setting. by rewrite Hh.
    + eauto.
Qed.

(** C10. When [IMAGE_WIDTH] or [IMAGE_HEIGHT] is set to a string that [int]
    rejects, [__init__] raises (a [ValueError]), whatever the file system
    and the variable [classes_map] hold. *)
Theorem init_rejects_bad_size (environ : gmap string string) (fs : file_system)
    (n d s : string) :
  environ !! "IMAGE_WIDTH" = Some s \/ environ !! "IMAGE_HEIGHT" = Some s ->
  Py.int s = None ->
  __init__ environ fs n d = Py.Raise Py.ValueError.
Proof.
  intros [Hk|Hk] Hs; unfold __init__.
  - unfold environ_get. by rewrite Hk, Hs.
  - destruct (Py.int (environ_get environ "IMAGE_WIDTH" "128")); simpl; [|done].
    unfold environ_get. by rewrite Hk, Hs.
Qed.

(** C5. When the classes file is unavailable (the variable is unset, the
    file is missing, or it is not JSON), [__init__] does not raise on that
    account: with the size parameters [w] and [h] read from the
    environment, it returns the adapter with [classes] set to [None] and
    the sizes [w] and [h]. *)
Theorem init_without_classes (environ : gmap string string) (fs : file_system)
    (n d : string) (w h : Z) :
  classes_unavailable environ fs ->
  setting environ "IMAGE_WIDTH" w -> setting environ "IMAGE_HEIGHT" h ->
  __init__ environ fs n d
  = Py.Ok {| name := n; model_dir := d; IMAGE_WIDTH := w; IMAGE_HEIGHT := h;
             classes := Py.VNone; model := None |}.
Proof.
  intros Hc Hw Hh.
  destruct (init_with_settings environ fs n d w h Hw Hh) as (c & -> & Hcl).
  apply load_classes_unavailable in Hc.
  destruct (load_classes environ fs); simpl in *; [done|].
  by inversion Hcl.
Qed.

(** *** [preprocess] *)

Lemma preprocess_step_prepare (self : TFModel) (fs : file_system)
    (output : gmap string (list np.ndarray)) (v : Py.value) :
  preprocess_step self fs output v
  = x ← prepare self fs v; append_instance output x.
Proof.
  unfold preprocess_step, prepare.
  destruct (Image_open fs v) as [img|e]; simpl; [|done].
  by destruct (Image_resize img _).
Qed.

Lemma append_instance_singleton (acc : list np.ndarray) (x : np.ndarray) :
  append_instance {["instances" := acc]} x
  = Py.Ok {["instances" := acc ++ [x]]}.
Proof.
  unfold append_instance. rewrite lookup_singleton_eq. simpl.
  by rewrite insert_singleton_eq.
Qed.

(** The loop appends the array of every instance, in order. *)
Lemma loop_appends (self : TFModel) (fs : file_system) (items : list Py.value)
    (xs acc : list np.ndarray) :
  Forall2 (fun v x => prepare self fs v = Py.Ok x) items xs ->
  Py.for_each (preprocess_step self fs) items {["instances" := acc]}
  = Py.Ok {["instances" := acc ++ xs]}.
Proof.
  intros Hall. revert acc.
  induction Hall as [|v x items xs Hv _ IH]; intros acc; simpl.
  - by rewrite app_nil_r.
  - rewrite preprocess_step_prepare, Hv. simpl.
    rewrite append_instance_singleton. simpl.
    rewrite IH. by rewrite <- app_assoc.
Qed.

(** The loop raises as soon as one instance cannot be prepared. *)
Lemma loop_raises (self : TFModel) (fs : file_system) (items : list Py.value)
    (acc : list np.ndarray) :
  Exists (fun v => Py.is_ok (prepare self fs v) = false) items ->
  Py.is_ok (Py.for_each (preprocess_step self fs) items {["instances" := acc]})
  = false.
Proof.
  intros Hex. revert acc.
  induction items as [|v items IH]; intros acc; [by inversion Hex|].
  simpl. rewrite preprocess_step_prepare.
  destruct (prepare self fs v) as [x|e] eqn:Hv; simpl; [|done].
  rewrite append_instance_singleton. simpl.
  apply IH. inversion Hex as [? ? Hbad|]; subst; [|done].
  by rewrite Hv in Hbad.
Qed.

Lemma fits_C_int_spec (z : Z) :
  fits_C_int z = true <-> - 2 ^ 31 <= z < 2 ^ 31.
Proof.
  unfold fits_C_int. rewrite andb_true_iff, Z.leb_le, Z.ltb_lt. done.
Qed.

Lemma prepare_shape (self : TFModel) (fs : file_system) (v : Py.value)
    (img : PIL.Image) :
  Image_open fs v = Py.Ok img ->
  1 <= IMAGE_WIDTH self < 2 ^ 31 -> 1 <= IMAGE_HEIGHT self < 2 ^ 31 ->
  Image_fits img (IMAGE_WIDTH self, IMAGE_HEIGHT self) = true ->
  exists x, prepare self fs v = Py.Ok x /\
            np.shape x = [1; IMAGE_HEIGHT self; IMAGE_WIDTH self;
                          PIL.bands (PIL.mode_of img)].
Proof.
  intros Hv Hw Hh Hfits. unfold prepare, Image_resize. rewrite Hv. simpl.
  case_bool_decide as Hsize.
  - eexists; split; [done|]. simpl. by rewrite Hsize.
  - cbn [fst snd].
    rewrite (proj2 (fits_C_int_spec (IMAGE_WIDTH self))) by lia.
    rewrite (proj2 (fits_C_int_spec (IMAGE_HEIGHT self))) by lia.
    destruct (Z.ltb_spec (IMAGE_WIDTH self) 1); [lia|].
    destruct (Z.ltb_spec (IMAGE_HEIGHT self) 1); [lia|].
    rewrite Hfits. simpl. eauto.
Qed.

Lemma malformed_not_prepared (self : TFModel) (fs : file_system) (v : Py.value) :
  malformed fs v -> Py.is_ok (prepare self fs v) = false.
Proof.
  unfold malformed, prepare. by destruct (Image_open fs v).
Qed.

(** *** [np.vstack] on arrays of one shape *)

Lemma concatenate0_same_shape (xs : list np.ndarray) (n : Z) (s : list Z) :
  xs <> [] ->
  Forall (fun x => np.shape x = n :: s) xs ->
  np.concatenate0 xs
  = Py.Ok {| np.shape := n * Z.of_nat (length xs) :: s;
             np.data := concat (map np.data xs) |}.
Proof.
  intros Hne Hall. unfold np.concatenate0.
  destruct xs as [|x xs']; [done|].
  pose proof (Forall_inv Hall) as Hx. rewrite Hx.
  assert (Hcheck : forallb (fun b => match np.shape b with
                                     | [] => false
                                     | _ :: rest' => np.shape_eqb rest' s
                                     end) (x :: xs') = true).
  { apply forallb_forall. intros b Hb.
    apply list_elem_of_In in Hb.
    rewrite (proj1 (Forall_forall _ _) Hall b Hb).
    unfold np.shape_eqb. by rewrite bool_decide_eq_true. }
  rewrite Hcheck. do 3 f_equal.
  clear Hne Hx Hcheck. induction Hall as [|y ys Hy _ IH]; simpl; [lia|].
  rewrite Hy, IH. simpl. lia.
Qed.

Lemma vstack_same_shape (xs : list np.ndarray) (n d1 : Z) (s : list Z) :
  xs <> [] ->
  Forall (fun x => np.shape x = n :: d1 :: s) xs ->
  np.vstack xs
  = Py.Ok {| np.shape := n * Z.of_nat (length xs) :: d1 :: s;
             np.data := concat (map np.data xs) |}.
Proof.
  intros Hne Hall. unfold np.vstack.
  assert (Hid : map np.atleast_2d xs = xs).
  { clear Hne. induction Hall as [|y ys Hy _ IH]; simpl; [done|].
    rewrite IH. f_equal. unfold np.atleast_2d. by rewrite Hy. }
  rewrite Hid. by apply concatenate0_same_shape.
Qed.

Lemma vstack_nil : np.vstack [] = Py.Raise Py.ValueError.
Proof. reflexivity. Qed.

Lemma preprocess_try_stacks (self : TFModel) (fs : file_system)
    (body : gmap string Py.value) (items : list Py.value)
    (xs : list np.ndarray) :
  Py.iter (default (Py.VList []) (body !! "instances")) = Py.Ok items ->
  Forall2 (fun v x => prepare self fs v = Py.Ok x) items xs ->
  preprocess_try self fs body
  = stacked ← np.vstack xs; mret {["instances" := [stacked]]}.
Proof.
  intros Hit Hall. unfold preprocess_try. rewrite Hit. simpl.
  rewrite (loop_appends self fs items xs []) by done. simpl.
  rewrite lookup_singleton_eq. simpl.
  destruct (np.vstack xs); simpl; [|done].
  by rewrite insert_singleton_eq.
Qed.

(** C1 (amended). For a body whose ['instances'] list holds N >= 1 images
    that [Image.open] accepts and that all have the same number [c] of
    bands, and for configured sizes from 1 up to 2^31 - 1 at which PIL can
    allocate each resized image, [preprocess] returns [{'instances': [t]}]
    where the one tensor [t] has shape (N, IMAGE_HEIGHT, IMAGE_WIDTH, c). *)
Theorem preprocess_stacks_batch (self : TFModel) (fs : file_system)
    (body : gmap string Py.value) (items : list Py.value)
    (imgs : list PIL.Image) (c : Z) :
  body !! "instances" = Some (Py.VList items) ->
  items <> [] ->
  Forall2 (fun v img => Image_open fs v = Py.Ok img) items imgs ->
  Forall (fun img => PIL.bands (PIL.mode_of img) = c) imgs ->
  1 <= IMAGE_WIDTH self < 2 ^ 31 -> 1 <= IMAGE_HEIGHT self < 2 ^ 31 ->
  Forall (fun img => Image_fits img (IMAGE_WIDTH self, IMAGE_HEIGHT self) = true)
         imgs ->
  exists t, preprocess self fs body = Py.Ok {["instances" := [t]]} /\
            np.shape t = [Z.of_nat (length items); IMAGE_HEIGHT self;
                          IMAGE_WIDTH self; c].
Proof.
  intros Hbody Hne Hopen Hbands Hw Hh Hfits.
  assert (Hxs : exists xs,
             Forall2 (fun v x => prepare self fs v = Py.Ok x) items xs /\
             Forall (fun x => np.shape x
                              = [1; IMAGE_HEIGHT self; IMAGE_WIDTH self; c]) xs).
  { clear Hbody Hne. induction Hopen as [|v img items imgs Hv _ IH].
    - exists []. split; constructor.
    - inversion Hbands as [|? ? Hc Hbands']; subst.
      inversion Hfits as [|? ? Hfit Hfits']; subst.
      destruct (IH Hbands' Hfits') as (xs & Hprep & Hshape).
      destruct (prepare_shape self fs v img Hv Hw Hh Hfit) as (x & Hx & Hsx).
      exists (x :: xs). split; by constructor. }
  destruct Hxs as (xs & Hprep & Hshape).
  assert (Hlen : length xs = length items) by (symmetry; by eapply Forall2_length).
  assert (Hxne : xs <> []) by (destruct xs, items; done).
  unfold preprocess.
  rewrite (preprocess_try_stacks self fs body items xs); [|by rewrite Hbody|done].
  rewrite (vstack_same_shape xs 1 (IMAGE_HEIGHT self) [IMAGE_WIDTH self; c]) by done.
  simpl. eexists; split; [done|]. simpl. rewrite Hlen. f_equal. lia.
Qed.

(** C3 (amended). For a body without the ['instances'] key, [preprocess]
    takes the instance list to be empty; stacking no array fails, and
    [preprocess] raises its generic exception, whose message holds the
    body. *)
Theorem preprocess_without_instances (self : TFModel) (fs : file_system)
    (body : gmap string Py.value) :
  body !! "instances" = None ->
  preprocess self fs body = Py.Raise (Py.Exception (received body)).
Proof.
  intros Hbody. unfold preprocess.
  rewrite (preprocess_try_stacks self fs body [] []).
  - by rewrite vstack_nil.
  - by rewrite Hbody.
  - constructor.
Qed.

Lemma append_empty_r (s : string) : String.append s "" = s.
Proof.
  induction s as [|a s IH]; [done|].
  change (String a (String.append s "") = String a s). by rewrite IH.
Qed.

Lemma occurs_in_received (body : gmap string Py.value) :
  occurs_in (dict_str body) (received body).
Proof.
  exists "received: ", "". unfold received. by rewrite append_empty_r.
Qed.

(** C4. When an instance of the batch is malformed, or anything else in
    the [try] block raises, [preprocess] raises the one generic exception
    [Exception('received: ' + str(body))], whose message holds the body;
    it returns no partial result. *)
Theorem preprocess_failure_is_generic (self : TFModel) (fs : file_system)
    (body : gmap string Py.value) :
  (exists items,
      Py.iter (default (Py.VList []) (body !! "instances")) = Py.Ok items /\
      Exists (malformed fs) items)
  \/ (exists e, preprocess_try self fs body = Py.Raise e) ->
  preprocess self fs body = Py.Raise (Py.Exception (received body)) /\
  occurs_in (dict_str body) (received body).
Proof.
  intros Hfail. split; [|apply occurs_in_received].
  assert (Hbad : Py.is_ok (preprocess_try self fs body) = false).
  { destruct Hfail as [(items & Hit & Hex)|(e & ->)]; [|done].
    unfold preprocess_try. rewrite Hit. simpl.
    pose proof (loop_raises self fs items []) as Hloop.
    destruct (Py.for_each _ _ _); [|done].
    discriminate Hloop.
    eapply Exists_impl; [exact Hex|]. intros v. apply malformed_not_prepared. }
  unfold preprocess. by destruct (preprocess_try self fs body).
Qed.

(** The generic exception is the only one that [preprocess] raises. *)
Lemma preprocess_raises_only_generic (self : TFModel) (fs : file_system)
    (body : gmap string Py.value) (e : Py.exn) :
  preprocess self fs body = Py.Raise e -> e = Py.Exception (received body).
Proof.
  unfold preprocess. destruct (preprocess_try self fs body); simpl; [done|].
  by intros [= <-].
Qed.

(** *** [predict] and [postprocess] *)

(** C8. With a loaded predictor [m], [predict] gives [m] the value of
    ['instances'] in [data], the empty list when the key is absent, and
    returns what [m] returns, unchanged. *)
Theorem predict_forwards (self : TFModel) (data : gmap string (list np.ndarray))
    (m : Predictor) :
  model self = Some m ->
  predict self data = m (default [] (data !! "instances")) /\
  (forall images, data !! "instances" = Some images -> predict self data = m images) /\
  (data !! "instances" = None -> predict self data = m []).
Proof.
  intros Hm. unfold predict. rewrite Hm. simpl.
  split; [done|]. split.
  - by intros images ->.
  - by intros ->.
Qed.

Lemma row_0 (p : np.ndarray) (n k : Z) :
  np.shape p = [n; k] -> row p 0 = take (Z.to_nat k) (np.data p).
Proof. intros Hs. unfold row. by rewrite Hs. Qed.

Lemma row_0_length (p : np.ndarray) (n k : Z) :
  np.shape p = [n; k] -> np.wf p -> 1 <= n -> 0 <= k ->
  length (row p 0) = Z.to_nat k.
Proof.
  intros Hs [_ Hlen] Hn Hk. rewrite (row_0 p n k Hs), length_take, Hlen, Hs.
  unfold np.prod. simpl. nia.
Qed.

(** C2 (amended). For a raw output of shape (n, k) with n >= 1 whose first
    row is not empty (k >= 1) and holds no NaN, [postprocess] returns
    [{'Mask probability': m}] where [m] is the greatest value of the first
    row. *)
Theorem postprocess_max_first_row (self : TFModel) (p : np.ndarray) (n k : Z) :
  np.shape p = [n; k] -> np.wf p -> 1 <= n -> 1 <= k ->
  Forall (fun x => np.isnan x = false) (row p 0) ->
  length (row p 0) = Z.to_nat k /\
  exists m, postprocess self p = Py.Ok {["Mask probability" := m]} /\
            is_max (row p 0) m.
Proof.
  intros Hs Hwf Hn Hk Hnan.
  pose proof (row_0_length p n k Hs Hwf Hn ltac:(lia)) as Hlen.
  split; [done|].
  assert (Hitem : np.tolist_item0 p
                  = Py.Ok {| np.shape := [k]; np.data := row p 0 |}).
  { unfold np.tolist_item0. rewrite Hs, (row_0 p n k Hs).
    destruct (Z.leb_spec n 0); [lia|].
    do 3 f_equal. unfold np.prod. simpl. lia. }
  unfold postprocess. rewrite Hitem. simpl.
  destruct (max_is_max {| np.shape := [k]; np.data := row p 0 |}) as (m & Hm & Hmax).
  - simpl. intros Hnil. rewrite Hnil in Hlen. simpl in Hlen. lia.
  - done.
  - rewrite Hm. simpl. eauto.
Qed.

(** C7. Two adapters that differ at most in [classes] give the same
    payload on the same raw output. *)
Theorem postprocess_ignores_classes (self1 self2 : TFModel) (p : np.ndarray) :
  name self1 = name self2 -> model_dir self1 = model_dir self2 ->
  IMAGE_WIDTH self1 = IMAGE_WIDTH self2 ->
  IMAGE_HEIGHT self1 = IMAGE_HEIGHT self2 ->
  model self1 = model self2 ->
  postprocess self1 p = postprocess self2 p.
Proof. intros _ _ _ _ _. reflexivity. Qed.

(** *** The pipeline *)

Lemma preprocess_depends_on_sizes (self1 self2 : TFModel) (fs : file_system)
    (body : gmap string Py.value) :
  IMAGE_WIDTH self1 = IMAGE_WIDTH self2 ->
  IMAGE_HEIGHT self1 = IMAGE_HEIGHT self2 ->
  preprocess self1 fs body = preprocess self2 fs body.
Proof.
  intros Hw Hh. unfold preprocess, preprocess_try.
  assert (Hstep : preprocess_step self1 fs = preprocess_step self2 fs).
  { unfold preprocess_step. by rewrite Hw, Hh. }
  by rewrite Hstep.
Qed.

Lemma predict_depends_on_model (self1 self2 : TFModel)
    (data : gmap string (list np.ndarray)) :
  model self1 = model self2 -> predict self1 data = predict self2 data.
Proof. intros Hm. unfold predict. by rewrite Hm. Qed.

(** Adapters that hold the same loaded model and the same sizes answer a
    request alike, whatever their names and classes. *)
Lemma handle_same_model_same_sizes (self1 self2 : TFModel) (fs : file_system)
    (body : gmap string Py.value) (m : Predictor) :
  model self1 = Some m -> model self2 = Some m ->
  IMAGE_WIDTH self1 = IMAGE_WIDTH self2 ->
  IMAGE_HEIGHT self1 = IMAGE_HEIGHT self2 ->
  handle self1 fs body = handle self2 fs body.
Proof.
  intros Hm1 Hm2 Hw Hh. unfold handle.
  rewrite (preprocess_depends_on_sizes self1 self2 fs body Hw Hh).
  destruct (preprocess self2 fs body) as [data|e]; simpl; [|done].
  rewrite (predict_depends_on_model self1 self2 data) by congruence.
  done.
Qed.

(** *** Batches that cannot be stacked *)

Lemma concatenate0_mismatch (a b : np.ndarray) (xs : list np.ndarray) :
  b ∈ a :: xs -> tail (np.shape b) <> tail (np.shape a) ->
  np.concatenate0 (a :: xs) = Py.Raise Py.ValueError.
Proof.
  intros Hb Hne. unfold np.concatenate0.
  destruct (np.shape a) as [|n rest] eqn:Ha; [done|].
  destruct (forallb _ (a :: xs)) eqn:Hcheck; [|done].
  exfalso. rewrite forallb_forall in Hcheck.
  specialize (Hcheck b (proj1 (list_elem_of_In _ _) Hb)).
  destruct (np.shape b) as [|m rest']; [done|].
  unfold np.shape_eqb in Hcheck. apply bool_decide_eq_true in Hcheck.
  by apply Hne.
Qed.

Lemma prepared_batch (self : TFModel) (fs : file_system)
    (items : list Py.value) (imgs : list PIL.Image) :
  Forall2 (fun v img => Image_open fs v = Py.Ok img) items imgs ->
  1 <= IMAGE_WIDTH self < 2 ^ 31 -> 1 <= IMAGE_HEIGHT self < 2 ^ 31 ->
  Forall (fun img => Image_fits img (IMAGE_WIDTH self, IMAGE_HEIGHT self) = true)
         imgs ->
  exists xs,
    Forall2 (fun v x => prepare self fs v = Py.Ok x) items xs /\
    Forall2 (fun img x => np.shape x = [1; IMAGE_HEIGHT self; IMAGE_WIDTH self;
                                        PIL.bands (PIL.mode_of img)]) imgs xs.
Proof.
  intros Hopen Hw Hh Hfits. induction Hopen as [|v img items imgs Hv _ IH].
  - exists []. split; constructor.
  - inversion Hfits as [|? ? Hfit Hfits']; subst.
    destruct (IH Hfits') as (xs & Hprep & Hshape).
    destruct (prepare_shape self fs v img Hv Hw Hh Hfit) as (x & Hx & Hsx).
    exists (x :: xs). split; by constructor.
Qed.

(** Two images of the batch with different numbers of bands make
    [preprocess] raise, however valid each image is. *)
Lemma preprocess_mixed_bands (self : TFModel) (fs : file_system)
    (body : gmap string Py.value) (items : list Py.value)
    (imgs : list PIL.Image) (img1 img2 : PIL.Image) :
  body !! "instances" = Some (Py.VList items) ->
  Forall2 (fun v img => Image_open fs v = Py.Ok img) items imgs ->
  1 <= IMAGE_WIDTH self < 2 ^ 31 -> 1 <= IMAGE_HEIGHT self < 2 ^ 31 ->
  Forall (fun img => Image_fits img (IMAGE_WIDTH self, IMAGE_HEIGHT self) = true)
         imgs ->
  img1 ∈ imgs -> img2 ∈ imgs ->
  PIL.bands (PIL.mode_of img1) <> PIL.bands (PIL.mode_of img2) ->
  preprocess self fs body = Py.Raise (Py.Exception (received body)).
Proof.
  intros Hbody Hopen Hw Hh Hfits H1 H2 Hne.
  destruct (prepared_batch self fs items imgs Hopen Hw Hh Hfits)
    as (xs & Hprep & Hshape).
  unfold preprocess.
  rewrite (preprocess_try_stacks self fs body items xs); [|by rewrite Hbody|done].
  assert (Hid : map np.atleast_2d xs = xs).
  { clear -Hshape. induction Hshape as [|img x imgs xs Hx _ IH]; simpl; [done|].
    rewrite IH. f_equal. unfold np.atleast_2d. by rewrite Hx. }
  unfold np.vstack. rewrite Hid.
  destruct Hshape as [|img0 x0 imgs xs Hx0 Hrest]; [by apply elem_of_nil in H1|].
  assert (Hwith : forall img, img ∈ img0 :: imgs ->
            PIL.bands (PIL.mode_of img) <> PIL.bands (PIL.mode_of img0) ->
            np.concatenate0 (x0 :: xs) = Py.Raise Py.ValueError).
  { intros img Hin Hdiff.
    assert (Hx : exists x, x ∈ x0 :: xs /\
               np.shape x = [1; IMAGE_HEIGHT self; IMAGE_WIDTH self;
                             PIL.bands (PIL.mode_of img)]).
    { apply elem_of_cons in Hin as [->|Hin].
      - exists x0. split; [apply list_elem_of_here | done].
      - destruct (proj1 (list_elem_of_lookup _ _) Hin) as (i & Hi).
        destruct (Forall2_lookup_l _ _ _ _ _ Hrest Hi) as (x & Hxi & Hsx).
        exists x. split; [|done].
        apply list_elem_of_further. by eapply list_elem_of_lookup_2. }
    destruct Hx as (x & Hxin & Hsx).
    apply (concatenate0_mismatch x0 x xs Hxin).
    rewrite Hsx, Hx0. simpl. congruence. }
  destruct (decide (PIL.bands (PIL.mode_of img1) = PIL.bands (PIL.mode_of img0)))
    as [Heq|Hdiff].
  - rewrite (Hwith img2 H2); [done|]. congruence.
  - by rewrite (Hwith img1 H1).
Qed.

(** *** [load] *)

Lemma load_sets_model (self self' : TFModel) (fs : file_system) :
  load self fs = Py.Ok self' ->
  is_Some (model self') /\
  IMAGE_WIDTH self' = IMAGE_WIDTH self /\
  IMAGE_HEIGHT self' = IMAGE_HEIGHT self /\
  classes self' = classes self.
Proof.
  unfold load.
  destruct (get_model fs (model_dir self) ".h5") as [[model_file extra]|e];
    simpl; [|done].
  destruct (load_model fs model_file) as [m|e]; simpl; [|done].
  intros [= <-]. simpl. eauto.
Qed.

(** X12. With [IMAGE_WIDTH] and [IMAGE_HEIGHT] set to non-empty strings of
    at most 640 decimal digits, [__init__] returns an adapter whose sizes
    are the numbers that these numerals denote.  (640 is
    [sys.int_info.str_digits_check_threshold]: no setting of the digit
    limit of [int] refuses so short a numeral.) *)
Lemma init_reads_numerals (environ : gmap string string) (fs : file_system)
    (n d : string) (dw dh : list Z) :
  dw <> [] -> dh <> [] ->
  Z.of_nat (length dw) <= 640 -> Z.of_nat (length dh) <= 640 ->
  Forall (fun x => 0 <= x <= 9) dw -> Forall (fun x => 0 <= x <= 9) dh ->
  environ !! "IMAGE_WIDTH" = Some (numeral dw) ->
  environ !! "IMAGE_HEIGHT" = Some (numeral dh) ->
  exists self, __init__ environ fs n d = Py.Ok self /\
               IMAGE_WIDTH self = numeral_value dw /\
               IMAGE_HEIGHT self = numeral_value dh.
Proof.
  intros Hw0 Hh0 Hlw Hlh Hdw Hdh Hw Hh.
  destruct (init_with_settings environ fs n d (numeral_value dw) (numeral_value dh))
    as (c & -> & _).
  - unfold setting. rewrite Hw.
    apply int_numeral; [done | unfold Py.max_str_digits; lia | done].
  - unfold setting. rewrite Hh.
    apply int_numeral; [done | unfold Py.max_str_digits; lia | done].
  - eauto.
Qed.

(** *** Shape conformance of what [preprocess] returns *)

Lemma wf_length (a : np.ndarray) :
  np.wf a <->
  Forall (fun d => 0 <= d) (np.shape a) /\
  Z.of_nat (length (np.data a)) = np.prod (np.shape a).
Proof.
  unfold np.wf.
  assert (Hprod : forall s, Forall (fun d => 0 <= d) s -> 0 <= np.prod s).
  { induction 1 as [|d s Hd _ IH]; unfold np.prod in *; simpl; lia. }
  split; intros [Hs Hl]; (split; [done|]); specialize (Hprod _ Hs); lia.
Qed.

Lemma bands_positive (m : PIL.mode) : 1 <= PIL.bands m.
Proof. destruct m; simpl; lia. Qed.

Lemma atleast_2d_wf (a : np.ndarray) : np.wf a -> np.wf (np.atleast_2d a).
Proof.
  rewrite !wf_length. unfold np.atleast_2d.
  destruct (np.shape a) as [|n [|n' s]] eqn:Hs; simpl; rewrite ?Hs; [| |done].
  - intros [_ Hl]. split; [repeat constructor; lia|]. unfold np.prod in *. simpl in *. lia.
  - intros [Hn Hl]. split; [constructor; [lia|done]|]. unfold np.prod in *. simpl in *. lia.
Qed.

Lemma concatenate0_wf (xs : list np.ndarray) (t : np.ndarray) :
  np.concatenate0 xs = Py.Ok t -> Forall np.wf xs -> np.wf t.
Proof.
  unfold np.concatenate0. destruct xs as [|a xs']; [done|].
  destruct (np.shape a) as [|n rest] eqn:Ha; [done|].
  destruct (forallb _ (a :: xs')) eqn:Hcheck; [|done].
  intros [= <-] Hwf. rewrite forallb_forall in Hcheck.
  assert (Hrest : Forall (fun d => 0 <= d) rest).
  { pose proof (Forall_inv Hwf) as [Hsa _]. rewrite Ha in Hsa.
    by inversion Hsa. }
  assert (Hrest0 : 0 <= np.prod rest).
  { clear -Hrest. induction Hrest as [|d s Hd _ IH]; unfold np.prod in *; simpl; lia. }
  assert (Hsum : forall ys : list np.ndarray,
             (forall b, In b ys -> match np.shape b with
                                   | [] => false
                                   | _ :: rest' => np.shape_eqb rest' rest
                                   end = true) ->
             Forall np.wf ys ->
             0 <= fold_right Z.add 0 (map (fun b => hd 0 (np.shape b)) ys) /\
             Z.of_nat (length (concat (map np.data ys)))
             = fold_right Z.add 0 (map (fun b => hd 0 (np.shape b)) ys)
               * np.prod rest).
  { induction ys as [|b ys IH]; intros Hall Hwfs; simpl; [lia|].
    inversion Hwfs as [|? ? Hb Hys]; subst.
    destruct IH as [IH0 IH]; [intros; apply Hall; by right | done |].
    specialize (Hall b (or_introl eq_refl)).
    apply wf_length in Hb as [Hsb Hlb].
    destruct (np.shape b) as [|m rest'] eqn:Hshape; [done|].
    unfold np.shape_eqb in Hall. apply bool_decide_eq_true in Hall. subst rest'.
    inversion Hsb; subst. simpl.
    rewrite length_app, Nat2Z.inj_add, IH, Hlb.
    unfold np.prod at 1. simpl. fold (np.prod rest). lia. }
  destruct (Hsum (a :: xs') Hcheck Hwf) as [H0 Hl].
  apply wf_length. cbn [np.shape np.data]. split; [by constructor|].
  etrans; [exact Hl|]. reflexivity.
Qed.

Lemma vstack_wf (xs : list np.ndarray) (t : np.ndarray) :
  np.vstack xs = Py.Ok t -> Forall np.wf xs -> np.wf t.
Proof.
  unfold np.vstack. intros Ht Hwf. apply (concatenate0_wf _ _ Ht).
  apply Forall_fmap. eapply Forall_impl; [exact Hwf|].
  intros a. apply atleast_2d_wf.
Qed.

(** A loop that ends has prepared every instance. *)
Lemma loop_ok_inv (self : TFModel) (fs : file_system) (items : list Py.value)
    (acc : list np.ndarray) (out : gmap string (list np.ndarray)) :
  Py.for_each (preprocess_step self fs) items {["instances" := acc]} = Py.Ok out ->
  exists xs, Forall2 (fun v x => prepare self fs v = Py.Ok x) items xs /\
             out = {["instances" := acc ++ xs]}.
Proof.
  revert acc. induction items as [|v items IH]; intros acc; simpl.
  - intros [= <-]. exists []. split; [constructor|]. by rewrite app_nil_r.
  - rewrite preprocess_step_prepare.
    destruct (prepare self fs v) as [x|e] eqn:Hv; simpl; [|done].
    rewrite append_instance_singleton. simpl. intros Hloop.
    destruct (IH _ Hloop) as (xs & Hprep & ->).
    exists (x :: xs). split; [by constructor|]. by rewrite <- app_assoc.
Qed.

Section WellFormedImages.

(** The decoders give well-formed images and the resampling filter gives
    one value per band and pixel of the size asked for. *)
Hypothesis decode_wf :
  forall content img, Image_decode content = Some img -> image_wf img.
Hypothesis resample_length :
  forall img size,
    1 <= fst size -> 1 <= snd size ->
    Z.of_nat (length (Image_resample img size))
    = fst size * snd size * PIL.bands (PIL.mode_of img).

Lemma Image_open_wf (fs : file_system) (v : Py.value) (img : PIL.Image) :
  Image_open fs v = Py.Ok img -> image_wf img.
Proof.
  unfold Image_open. destruct v; simpl; try done.
  - destruct (fs !! s) as [content|]; simpl; [|done].
    destruct (Image_decode content) eqn:Hd; simpl; [|done].
    intros [= <-]. by eapply decode_wf.
  - destruct (fs !! s) as [content|]; simpl; [|done].
    destruct (Image_decode content) eqn:Hd; simpl; [|done].
    intros [= <-]. by eapply decode_wf.
  - destruct (Image_decode content) eqn:Hd; simpl; [|done].
    intros [= <-]. by eapply decode_wf.
Qed.

Lemma prepare_wf (self : TFModel) (fs : file_system) (v : Py.value)
    (x : np.ndarray) :
  prepare self fs v = Py.Ok x -> np.wf x.
Proof.
  unfold prepare. destruct (Image_open fs v) as [img|e] eqn:Hv; simpl; [|done].
  apply Image_open_wf in Hv as (Hw & Hh & Hlen).
  pose proof (bands_positive (PIL.mode_of img)) as Hb.
  unfold Image_resize. case_bool_decide as Hsize; simpl.
  - intros [= <-]. apply wf_length. simpl. split.
    + repeat constructor; lia.
    + rewrite length_map, Hlen. unfold np.prod. simpl. lia.
  - destruct (negb _); simpl; [done|].
    destruct (Z.ltb_spec (IMAGE_WIDTH self) 1); simpl; [done|].
    destruct (Z.ltb_spec (IMAGE_HEIGHT self) 1); simpl; [done|].
    destruct (negb _); simpl; [done|].
    intros [= <-]. apply wf_length. simpl. split.
    + repeat constructor; lia.
    + rewrite length_map, resample_length by (simpl; lia).
      unfold np.prod. simpl. lia.
Qed.

(** X3. With decoders that give well-formed images and a resampling
    filter that gives one value per band and pixel, whatever [preprocess]
    returns is [{'instances': [t]}] for one well-formed tensor [t]: its
    dimensions are not negative and it holds as many values as their
    product. *)
Lemma preprocess_returns_one_tensor (self : TFModel) (fs : file_system)
    (body : gmap string Py.value) (out : gmap string (list np.ndarray)) :
  preprocess self fs body = Py.Ok out ->
  exists t, out = {["instances" := [t]]} /\ np.wf t.
Proof.
  unfold preprocess, preprocess_try.
  destruct (Py.iter _) as [items|e]; simpl; [|done].
  destruct (Py.for_each _ items _) as [output|e] eqn:Hloop; simpl; [|done].
  destruct (loop_ok_inv self fs items [] output Hloop) as (xs & Hprep & ->).
  rewrite lookup_singleton_eq. simpl.
  destruct (np.vstack xs) as [t|e] eqn:Hstack; simpl; [|done].
  rewrite insert_singleton_eq. intros [= <-].
  exists t. split; [done|]. apply (vstack_wf xs t Hstack).
  clear -Hprep decode_wf resample_length.
  induction Hprep as [|v x items xs Hv _ IH]; constructor; [|done].
  by eapply prepare_wf.
Qed.

End WellFormedImages.

(** *** What a successful [preprocess] implies *)

Lemma prepare_inv (self : TFModel) (fs : file_system) (v : Py.value)
    (x : np.ndarray) :
  prepare self fs v = Py.Ok x ->
  exists img, Image_open fs v = Py.Ok img /\
              np.shape x = [1; IMAGE_HEIGHT self; IMAGE_WIDTH self;
                            PIL.bands (PIL.mode_of img)].
Proof.
  unfold prepare. destruct (Image_open fs v) as [img|e]; simpl; [|done].
  unfold Image_resize. case_bool_decide as Hsize; simpl.
  - intros [= <-]. exists img. split; [done|]. simpl. by rewrite Hsize.
  - destruct (negb _); simpl; [done|].
    destruct ((IMAGE_WIDTH self <? 1) || (IMAGE_HEIGHT self <? 1)); simpl; [done|].
    destruct (negb _); simpl; [done|].
    intros [= <-]. by exists img.
Qed.

Lemma prepared_inv (self : TFModel) (fs : file_system)
    (items : list Py.value) (xs : list np.ndarray) :
  Forall2 (fun v x => prepare self fs v = Py.Ok x) items xs ->
  exists imgs,
    Forall2 (fun v img => Image_open fs v = Py.Ok img) items imgs /\
    Forall2 (fun img x => np.shape x = [1; IMAGE_HEIGHT self; IMAGE_WIDTH self;
                                        PIL.bands (PIL.mode_of img)]) imgs xs.
Proof.
  induction 1 as [|v x items xs Hv _ (imgs & Hopen & Hshape)].
  - exists []. split; constructor.
  - destruct (prepare_inv self fs v x Hv) as (img & Himg & Hsx).
    exists (img :: imgs). split; by constructor.
Qed.

Lemma concatenate0_inv (xs : list np.ndarray) (t : np.ndarray) :
  np.concatenate0 xs = Py.Ok t ->
  exists a xs' n rest,
    xs = a :: xs' /\ np.shape a = n :: rest /\
    Forall (fun b => exists m, np.shape b = m :: rest) xs /\
    t = {| np.shape := fold_right Z.add 0 (map (fun b => hd 0 (np.shape b)) xs) :: rest;
           np.data := concat (map np.data xs) |}.
Proof.
  unfold np.concatenate0. destruct xs as [|a xs']; [done|].
  destruct (np.shape a) as [|n rest] eqn:Ha; [done|].
  destruct (forallb _ (a :: xs')) eqn:Hcheck; [|done].
  intros [= <-]. exists a, xs', n, rest. repeat split; [done|].
  rewrite forallb_forall in Hcheck. apply Forall_forall. intros b Hb.
  specialize (Hcheck b (proj1 (list_elem_of_In _ _) Hb)).
  destruct (np.shape b) as [|m rest']; [done|].
  unfold np.shape_eqb in Hcheck. apply bool_decide_eq_true in Hcheck.
  subst. by exists m.
Qed.

(** All there is to know of a [preprocess] that returns. *)
Lemma preprocess_ok_inv (self : TFModel) (fs : file_system)
    (body : gmap string Py.value) (out : gmap string (list np.ndarray)) :
  preprocess self fs body = Py.Ok out ->
  exists items imgs xs t c,
    Py.iter (default (Py.VList []) (body !! "instances")) = Py.Ok items /\
    items <> [] /\
    Forall2 (fun v img => Image_open fs v = Py.Ok img) items imgs /\
    Forall (fun img => PIL.bands (PIL.mode_of img) = c) imgs /\
    Forall2 (fun v x => prepare self fs v = Py.Ok x) items xs /\
    out = {["instances" := [t]]} /\
    np.shape t = [Z.of_nat (length items); IMAGE_HEIGHT self;
                  IMAGE_WIDTH self; c] /\
    np.data t = concat (map np.data xs).
Proof.
  unfold preprocess, preprocess_try.
  destruct (Py.iter _) as [items|e] eqn:Hit; simpl; [|done].
  destruct (Py.for_each _ items _) as [output|e] eqn:Hloop; simpl; [|done].
  destruct (loop_ok_inv self fs items [] output Hloop) as (xs & Hprep & ->).
  rewrite lookup_singleton_eq. simpl.
  destruct (np.vstack xs) as [t|e] eqn:Hstack; simpl; [|done].
  rewrite insert_singleton_eq. intros [= <-].
  destruct (prepared_inv self fs items xs Hprep) as (imgs & Hopen & Hshape).
  assert (Hid : map np.atleast_2d xs = xs).
  { clear -Hshape. induction Hshape as [|img x imgs xs Hx _ IH]; simpl; [done|].
    rewrite IH. f_equal. unfold np.atleast_2d. by rewrite Hx. }
  unfold np.vstack in Hstack. rewrite Hid in Hstack.
  destruct (concatenate0_inv xs t Hstack) as (a & xs' & n & rest & -> & Ha & Hall & ->).
  destruct imgs as [|img0 imgs']; [by inversion Hshape|].
  destruct items as [|v0 items']; [by inversion Hopen|].
  pose proof (Forall2_cons_1 _ _ _ _ _ Hshape) as [Ha0 _].
  rewrite Ha0 in Ha. injection Ha as <- <-.
  exists (v0 :: items'), (img0 :: imgs'), (a :: xs'), 
    {| np.shape := fold_right Z.add 0 (map (fun b => hd 0 (np.shape b)) (a :: xs'))
                   :: [IMAGE_HEIGHT self; IMAGE_WIDTH self;
                       PIL.bands (PIL.mode_of img0)];
       np.data := concat (map np.data (a :: xs')) |},
    (PIL.bands (PIL.mode_of img0)).
  repeat split; try done.
  - clear -Hshape Hall. revert Hall.
    induction Hshape as [|img x imgs xs Hx _ IH]; intros Hall; constructor.
    + destruct (Forall_inv Hall) as (m & Hm). rewrite Hx in Hm. congruence.
    + apply IH. by eapply Forall_inv_tail.
  - cbn [np.shape]. f_equal.
    rewrite (Forall2_length _ _ _ Hopen), (Forall2_length _ _ _ Hshape).
    clear -Hshape. induction Hshape as [|img x imgs xs Hx _ IH]; [done|].
    cbn [map fold_right length]. rewrite Hx, IH. cbn [hd]. lia.
Qed.

(** X1. When [preprocess] returns, the ['instances'] value was iterable
    and not empty, [Image.open] accepted every instance, and all the
    images had the same number of bands. *)
Theorem preprocess_success_batch (self : TFModel) (fs : file_system)
    (body : gmap string Py.value) (out : gmap string (list np.ndarray)) :
  preprocess self fs body = Py.Ok out ->
  exists items imgs c,
    Py.iter (default (Py.VList []) (body !! "instances")) = Py.Ok items /\
    items <> [] /\
    Forall2 (fun v img => Image_open fs v = Py.Ok img) items imgs /\
    Forall (fun img => PIL.bands (PIL.mode_of img) = c) imgs.
Proof.
  intros Hok.
  destruct (preprocess_ok_inv self fs body out Hok)
    as (items & imgs & xs & t & c & Hit & Hne & Hopen & Hbands & _).
  by exists items, imgs, c.
Qed.

(** X2. When [preprocess] returns, it returns [{'instances': [t]}] where
    [t] has as many items as the request has instances, the configured
    height and width, and holds the arrays of the instances one after the
    other, in the order of the request. *)
Theorem preprocess_success_tensor (self : TFModel) (fs : file_system)
    (body : gmap string Py.value) (out : gmap string (list np.ndarray)) :
  preprocess self fs body = Py.Ok out ->
  exists items xs t c,
    Py.iter (default (Py.VList []) (body !! "instances")) = Py.Ok items /\
    Forall2 (fun v x => prepare self fs v = Py.Ok x) items xs /\
    out = {["instances" := [t]]} /\
    np.shape t = [Z.of_nat (length items); IMAGE_HEIGHT self;
                  IMAGE_WIDTH self; c] /\
    np.data t = concat (map np.data xs).
Proof.
  intros Hok.
  destruct (preprocess_ok_inv self fs body out Hok)
    as (items & imgs & xs & t & c & Hit & _ & _ & _ & Hprep & Hout & Hs & Hd).
  by exists items, xs, t, c.
Qed.

Lemma preprocess_try_malformed (self : TFModel) (fs : file_system)
    (body : gmap string Py.value) (items : list Py.value) :
  Py.iter (default (Py.VList []) (body !! "instances")) = Py.Ok items ->
  Exists (fun v => Py.is_ok (prepare self fs v) = false) items ->
  Py.is_ok (preprocess_try self fs body) = false.
Proof.
  intros Hit Hex. unfold preprocess_try. rewrite Hit. simpl.
  pose proof (loop_raises self fs items [] Hex) as Hloop.
  by destruct (Py.for_each _ _ _).
Qed.

Lemma preprocess_of_failed_try (self : TFModel) (fs : file_system)
    (body : gmap string Py.value) :
  Py.is_ok (preprocess_try self fs body) = false ->
  preprocess self fs body = Py.Raise (Py.Exception (received body)).
Proof. unfold preprocess. by destruct (preprocess_try self fs body). Qed.

(** X4. With a configured width or height below 1, [preprocess] raises its
    generic exception on every body whose images do not already have the
    configured size: [resize] rejects the size (and an empty or non-iterable
    batch fails as always). *)
Theorem preprocess_rejects_small_size (self : TFModel) (fs : file_system)
    (body : gmap string Py.value) :
  IMAGE_WIDTH self < 1 \/ IMAGE_HEIGHT self < 1 ->
  (forall items,
      Py.iter (default (Py.VList []) (body !! "instances")) = Py.Ok items ->
      Forall (fun v => forall img, Image_open fs v = Py.Ok img ->
                                   PIL.size img <> (IMAGE_WIDTH self, IMAGE_HEIGHT self))
             items) ->
  preprocess self fs body = Py.Raise (Py.Exception (received body)).
Proof.
  intros Hsmall Hsizes. apply preprocess_of_failed_try.
  destruct (Py.iter (default (Py.VList []) (body !! "instances")))
    as [items|e] eqn:Hit.
  - specialize (Hsizes items eq_refl).
    destruct items as [|v items].
    + unfold preprocess_try. rewrite Hit. reflexivity.
    + apply (preprocess_try_malformed self fs body (v :: items) Hit).
      apply Exists_cons_hd. unfold prepare.
      destruct (Image_open fs v) as [img|e] eqn:Hv; simpl; [|done].
      pose proof (Forall_inv Hsizes img Hv) as Hne.
      unfold Image_resize. rewrite bool_decide_eq_false_2 by done.
      assert (Hlt : (IMAGE_WIDTH self <? 1) || (IMAGE_HEIGHT self <? 1) = true).
      { apply orb_true_iff. destruct Hsmall; [left|right]; by apply Z.ltb_lt. }
      cbn [fst snd]. destruct (negb _); [done|]. by rewrite Hlt.
  - unfold preprocess_try. by rewrite Hit.
Qed.

(** X5. [preprocess] reads nothing of the body but the value of
    ['instances']: a body that agrees with another on that key gets the
    same result whenever the other gets one. *)
Theorem preprocess_reads_only_instances (self : TFModel) (fs : file_system)
    (body1 body2 : gmap string Py.value) (out : gmap string (list np.ndarray)) :
  body1 !! "instances" = body2 !! "instances" ->
  preprocess self fs body1 = Py.Ok out ->
  preprocess self fs body2 = Py.Ok out.
Proof.
  intros Hsame. unfold preprocess.
  assert (Htry : preprocess_try self fs body1 = preprocess_try self fs body2)
    by (unfold preprocess_try; by rewrite Hsame).
  rewrite Htry. by destruct (preprocess_try self fs body2).
Qed.

(** *** [postprocess] on outputs of any shape *)

Lemma tolist_item0_first (p : np.ndarray) (n : Z) (rest : list Z) :
  np.shape p = n :: rest -> 1 <= n ->
  np.tolist_item0 p = Py.Ok {| np.shape := rest; np.data := first_item p |}.
Proof.
  intros Hs Hn. unfold np.tolist_item0, first_item. rewrite Hs.
  destruct (Z.leb_spec n 0); [lia|]. reflexivity.
Qed.

Lemma postprocess_first_item (self : TFModel) (p : np.ndarray) (n : Z)
    (rest : list Z) :
  np.shape p = n :: rest -> 1 <= n -> first_item p <> [] ->
  exists m, postprocess self p = Py.Ok {["Mask probability" := m]} /\
            m ∈ first_item p /\
            (Forall (fun x => np.isnan x = false) (first_item p) ->
             forall x, x ∈ first_item p -> SFleb x m = true) /\
            (S754_nan ∈ first_item p -> m = S754_nan).
Proof.
  intros Hs Hn Hne. unfold postprocess.
  rewrite (tolist_item0_first p n rest Hs Hn). simpl.
  unfold np.max. simpl. destruct (first_item p) as [|x l]; [done|]. simpl.
  eexists; split; [done|]. split; [apply fold_maximum_elem|]. split.
  - intros Hall. inversion Hall; subst. by apply fold_maximum_upper.
  - apply fold_maximum_nan.
Qed.

(** X6. For a raw output of any shape (n, ...) with n >= 1 whose first
    item is not empty, [postprocess] returns [{'Mask probability': m}]
    where [m] is one of the values of the first item; when the first item
    holds no NaN, no value of it is above [m]. *)
Theorem postprocess_payload_is_a_score (self : TFModel) (p : np.ndarray)
    (n : Z) (rest : list Z) :
  np.shape p = n :: rest -> 1 <= n -> first_item p <> [] ->
  exists m, postprocess self p = Py.Ok {["Mask probability" := m]} /\
            m ∈ first_item p /\
            (Forall (fun x => np.isnan x = false) (first_item p) ->
             forall x, x ∈ first_item p -> SFleb x m = true).
Proof.
  intros Hs Hn Hne.
  destruct (postprocess_first_item self p n rest Hs Hn Hne)
    as (m & Hm & Hin & Hup & _).
  by exists m.
Qed.

(** X7. A NaN anywhere in the first item of the raw output makes the
    reported probability NaN, whatever the other scores are. *)
Theorem postprocess_nan (self : TFModel) (p : np.ndarray) (n : Z)
    (rest : list Z) :
  np.shape p = n :: rest -> 1 <= n -> S754_nan ∈ first_item p ->
  postprocess self p = Py.Ok {["Mask probability" := S754_nan]}.
Proof.
  intros Hs Hn Hnan.
  destruct (postprocess_first_item self p n rest Hs Hn) as (m & Hm & _ & _ & Hm');
    [by intros Hnil; rewrite Hnil in Hnan; apply elem_of_nil in Hnan|].
  by rewrite Hm, (Hm' Hnan).
Qed.

(** X8. [postprocess] looks at the first item of the raw output only: two
    outputs with the same first item, whatever their other rows and their
    numbers of rows, get the same result. *)
Theorem postprocess_first_item_only (self : TFModel) (p q : np.ndarray)
    (n n' : Z) (rest : list Z) :
  np.shape p = n :: rest -> np.shape q = n' :: rest ->
  1 <= n -> 1 <= n' -> first_item p = first_item q ->
  postprocess self p = postprocess self q.
Proof.
  intros Hp Hq Hn Hn' Hsame. unfold postprocess.
  rewrite (tolist_item0_first p n rest Hp Hn),
          (tolist_item0_first q n' rest Hq Hn').
  by rewrite Hsame.
Qed.

(** X9. The exceptions of [postprocess]: a [TypeError] on a
    zero-dimensional output, an [IndexError] on an output without rows, a
    [ValueError] on an output whose first item is empty. *)
Theorem postprocess_errors (self : TFModel) (p : np.ndarray) :
  (np.shape p = [] -> postprocess self p = Py.Raise Py.TypeError) /\
  (forall n rest, np.shape p = n :: rest -> n <= 0 ->
                  postprocess self p = Py.Raise Py.IndexError) /\
  (forall n rest, np.shape p = n :: rest -> 1 <= n -> first_item p = [] ->
                  postprocess self p = Py.Raise Py.ValueError).
Proof.
  repeat split.
  - intros Hs. unfold postprocess, np.tolist_item0. by rewrite Hs.
  - intros n rest Hs Hn. unfold postprocess, np.tolist_item0. rewrite Hs.
    by destruct (Z.leb_spec n 0); [|lia].
  - intros n rest Hs Hn Hnil. unfold postprocess.
    rewrite (tolist_item0_first p n rest Hs Hn). simpl.
    unfold np.max. simpl. by rewrite Hnil.
Qed.

(** *** More on [__init__] and [load] *)

Lemma setting_of_environ_get (environ : gmap string string) (key : string) (v : Z) :
  Py.int (environ_get environ key "128") = Some v -> setting environ key v.
Proof.
  unfold setting, environ_get. destruct (environ !! key); [done|].
  vm_compute. congruence.
Qed.

(** X10. [__init__] returns exactly when each of the two size variables is
    unset or holds a string that [int] accepts: nothing about the classes
    file can make it fail. *)
Theorem init_fails_only_on_sizes (environ : gmap string string)
    (fs : file_system) (n d : string) :
  Py.is_ok (__init__ environ fs n d) = true <->
  exists w h, setting environ "IMAGE_WIDTH" w /\ setting environ "IMAGE_HEIGHT" h.
Proof.
  split.
  - unfold __init__.
    destruct (Py.int (environ_get environ "IMAGE_WIDTH" "128")) as [w|] eqn:Hw;
      simpl; [|done].
    destruct (Py.int (environ_get environ "IMAGE_HEIGHT" "128")) as [h|] eqn:Hh;
      simpl; [|done].
    intros _. exists w, h. split; by apply setting_of_environ_get.
  - intros (w & h & Hw & Hh).
    by destruct (init_with_settings environ fs n d w h Hw Hh) as (c & -> & _).
Qed.

(** X11. When [classes_map] names a file that holds JSON and the size
    variables are fine, [__init__] returns the adapter whose [classes] is
    the parsed content of that file. *)
Theorem init_loads_classes (environ : gmap string string) (fs : file_system)
    (n d path content : string) (v : Py.value) (w h : Z) :
  environ !! "classes_map" = Some path -> fs !! path = Some content ->
  json_loads content = Some v ->
  setting environ "IMAGE_WIDTH" w -> setting environ "IMAGE_HEIGHT" h ->
  __init__ environ fs n d
  = Py.Ok {| name := n; model_dir := d; IMAGE_WIDTH := w; IMAGE_HEIGHT := h;
             classes := v; model := None |}.
Proof.
  intros Hpath Hfile Hjson Hw Hh.
  destruct (init_with_settings environ fs n d w h Hw Hh) as (c & -> & Hc).
  unfold load_classes in Hc. rewrite Hpath in Hc. simpl in Hc.
  rewrite Hfile in Hc. simpl in Hc. rewrite Hjson in Hc. simpl in Hc.
  by inversion Hc.
Qed.

(** X13. An adapter that [__init__] has just built has no model: [predict]
    raises an [AttributeError] on any data until [load] has run. *)
Theorem predict_after_init_raises (environ : gmap string string) (fs : file_system)
    (n d : string) (self : TFModel) (data : gmap string (list np.ndarray)) :
  __init__ environ fs n d = Py.Ok self ->
  predict self data = Py.Raise Py.AttributeError.
Proof.
  unfold __init__.
  destruct (Py.int (environ_get environ "IMAGE_WIDTH" "128")); simpl; [|done].
  destruct (Py.int (environ_get environ "IMAGE_HEIGHT" "128")); simpl; [|done].
  destruct (Py.try_except _ _); simpl; [|done].
  by intros [= <-].
Qed.

(** X14. When the model store finds the [.h5] artifact and Keras loads it
    as [m], [load] returns the adapter with the same name, directory, sizes
    and classes, and from then on [predict] answers with what [m] returns
    on the ['instances'] of its data. *)
Theorem load_then_predict (self : TFModel) (fs : file_system)
    (model_file : string) (extra_data : Py.value) (m : Predictor) :
  get_model fs (model_dir self) ".h5" = Py.Ok (model_file, extra_data) ->
  load_model fs model_file = Py.Ok m ->
  exists self',
    load self fs = Py.Ok self' /\
    name self' = name self /\ model_dir self' = model_dir self /\
    IMAGE_WIDTH self' = IMAGE_WIDTH self /\
    IMAGE_HEIGHT self' = IMAGE_HEIGHT self /\
    classes self' = classes self /\
    forall data, predict self' data = m (default [] (data !! "instances")).
Proof.
  intros Hget Hload. unfold load. rewrite Hget. simpl. rewrite Hload. simpl.
  eexists; split; [done|]. repeat split.
Qed.

(** *** The pipeline, end to end *)

(** X15. When [preprocess] returns [{'instances': [t]}], the loaded
    predictor answers [p] on the one-element list [[t]], and the first item
    of [p] is not empty and holds no NaN, the pipeline returns
    [{'Mask probability': m}] with [m] the greatest value of that first
    item. *)
Theorem handle_end_to_end (self : TFModel) (fs : file_system)
    (body : gmap string Py.value) (t p : np.ndarray) (m : Predictor)
    (n : Z) (rest : list Z) :
  preprocess self fs body = Py.Ok {["instances" := [t]]} ->
  model self = Some m -> m [t] = Py.Ok p ->
  np.shape p = n :: rest -> 1 <= n -> first_item p <> [] ->
  Forall (fun x => np.isnan x = false) (first_item p) ->
  exists mm, handle self fs body = Py.Ok {["Mask probability" := mm]} /\
             is_max (first_item p) mm.
Proof.
  intros Hpre Hm Hp Hs Hn Hne Hnan. unfold handle. rewrite Hpre. simpl.
  unfold predict. rewrite lookup_singleton_eq, Hm. simpl. rewrite Hp. simpl.
  destruct (postprocess_first_item self p n rest Hs Hn Hne)
    as (mm & Hmm & Hin & Hup & _).
  exists mm. split; [done|]. split; [done|]. by apply Hup.
Qed.

(** X16. A request with a malformed instance is answered with the generic
    exception of [preprocess] whatever the adapter's model is, loaded or
    not: the predictor has no part in the result. *)
Theorem handle_rejects_malformed (self : TFModel) (fs : file_system)
    (body : gmap string Py.value) (items : list Py.value) :
  Py.iter (default (Py.VList []) (body !! "instances")) = Py.Ok items ->
  Exists (malformed fs) items ->
  handle self fs body = Py.Raise (Py.Exception (received body)).
Proof.
  intros Hit Hex. unfold handle.
  rewrite preprocess_of_failed_try; [done|].
  apply (preprocess_try_malformed self fs body items Hit).
  eapply Exists_impl; [exact Hex|]. intros v. apply malformed_not_prepared.
Qed.

(** X17. A body whose ['instances'] value cannot be iterated (a number,
    a boolean, [None]) or yields nothing when iterated (an empty list,
    string, [bytes], dictionary or file object) makes [preprocess] raise
    its generic exception. *)
Theorem preprocess_rejects_empty_or_non_sequence (self : TFModel)
    (fs : file_system) (body : gmap string Py.value) :
  Py.is_ok (Py.iter (default (Py.VList []) (body !! "instances"))) = false \/
  Py.iter (default (Py.VList []) (body !! "instances")) = Py.Ok [] ->
  preprocess self fs body = Py.Raise (Py.Exception (received body)).
Proof.
  intros Hbad. apply preprocess_of_failed_try. unfold preprocess_try.
  destruct Hbad as [Hbad|Hbad].
  - by destruct (Py.iter _).
  - by rewrite Hbad.
Qed.

(** X18. Past [preprocess] nothing is caught: when [preprocess] returns,
    the pipeline raises an [AttributeError] if no model is loaded, and
    raises what the predictor raises, as it is, if the predictor fails. *)
Theorem handle_propagates (self : TFModel) (fs : file_system)
    (body : gmap string Py.value) (data : gmap string (list np.ndarray)) :
  preprocess self fs body = Py.Ok data ->
  (model self = None -> handle self fs body = Py.Raise Py.AttributeError) /\
  (forall m e, model self = Some m ->
               m (default [] (data !! "instances")) = Py.Raise e ->
               handle self fs body = Py.Raise e).
Proof.
  intros Hpre. unfold handle, predict. rewrite Hpre. simpl. split.
  - by intros ->.
  - intros m e -> He. simpl. by rewrite He.
Qed.

(** *** The hooks as methods: what they do to the adapter *)

#[local] Existing Instance method_mret.
#[local] Existing Instance method_mbind.

Lemma preprocess_loop_run (self : TFModel) (fs : file_system)
    (items : list Py.value) (output : gmap string (list np.ndarray)) :
  method_for_each
    (fun output byte_image =>
       img ← call (Image_open fs byte_image);
       width ← getattr IMAGE_WIDTH;
       height ← getattr IMAGE_HEIGHT;
       img ← call (Image_resize img (width, height));
       let x := img_to_array img in
       let x := np.expand_dims0 x in
       call (append_instance output x))
    items output self
  = (Py.for_each (preprocess_step self fs) items output, self).
Proof.
  revert output. induction items as [|v items IH]; intros output; [done|].
  cbn [method_for_each Py.for_each]. unfold method_bind at 1.
  unfold preprocess_step at 1.
  unfold mbind, method_mbind, result_bind, method_bind, call, getattr.
  destruct (Image_open fs v) as [img|e]; simpl; [|done].
  destruct (Image_resize img _) as [img'|e]; simpl; [|done].
  destruct (append_instance output _) as [output'|e]; simpl; [|done].
  apply IH.
Qed.

(** [preprocess] as a method returns what the function [preprocess]
    returns and leaves every attribute of the adapter as it was. *)
Lemma preprocess_method_run (self : TFModel) (fs : file_system)
    (body : gmap string Py.value) :
  preprocess_method fs body self = (preprocess self fs body, self).
Proof.
  unfold preprocess_method, preprocess, preprocess_try, method_try_except.
  unfold mbind at 1. unfold method_mbind, method_bind at 1. unfold call at 1.
  destruct (Py.iter _) as [items|e]; simpl; [|done].
  unfold mbind at 1. unfold method_mbind, method_bind at 1.
  rewrite preprocess_loop_run.
  destruct (Py.for_each _ items _) as [output|e]; simpl; [|done].
  unfold mbind, method_mbind, method_bind, call, mret, method_mret, method_ret.
  destruct (output !! "instances") as [l|]; simpl; [|done].
  by destruct (np.vstack l).
Qed.

Lemma predict_method_run (self : TFModel) (data : gmap string (list np.ndarray)) :
  predict_method data self = (predict self data, self).
Proof.
  unfold predict_method, predict.
  unfold mbind, method_mbind, method_bind, call, getattr.
  by destruct (model self).
Qed.

Lemma postprocess_method_run (self : TFModel) (p : np.ndarray) :
  postprocess_method p self = (postprocess self p, self).
Proof.
  unfold postprocess_method, postprocess.
  unfold mbind, method_mbind, method_bind, call, mret, method_mret, method_ret.
  destruct (np.tolist_item0 p) as [row|e]; simpl; [|done].
  by destruct (np.max row).
Qed.

Lemma handle_method_run (self : TFModel) (fs : file_system)
    (body : gmap string Py.value) :
  handle_method fs body self = (handle self fs body, self).
Proof.
  unfold handle_method, handle.
  unfold mbind at 1. unfold method_mbind, method_bind at 1.
  rewrite preprocess_method_run.
  destruct (preprocess self fs body) as [data|e]; simpl; [|done].
  unfold mbind at 1. unfold method_mbind, method_bind at 1.
  rewrite predict_method_run.
  destruct (predict self data) as [p|e]; simpl; [|done].
  apply postprocess_method_run.
Qed.

(** [load] is the one hook that assigns an attribute. *)
Lemma load_method_run (self : TFModel) (fs : file_system) :
  load_method fs self
  = match load self fs with
    | Py.Ok self' => (Py.Ok tt, self')
    | Py.Raise e => (Py.Raise e, self)
    end.
Proof.
  unfold load_method, load.
  unfold mbind, method_mbind, method_bind, call, getattr, set_model.
  destruct (get_model fs (model_dir self) ".h5") as [[model_file extra]|e];
    simpl; [|done].
  by destruct (load_model fs model_file).
Qed.

Lemma serve_run (self : TFModel) (fs : file_system)
    (bodies : list (gmap string Py.value)) :
  serve fs bodies self = (map (handle self fs) bodies, self).
Proof.
  induction bodies as [|body bodies IH]; [done|].
  cbn [serve map]. by rewrite handle_method_run, IH.
Qed.

(** C6. Run as methods on one adapter, with the libraries and so the
    predictor being functions and the files unchanged, two invocations of
    preprocess, predict, postprocess on the same body give the same
    response, and so does an invocation after any other requests: no hook
    of the pipeline assigns an attribute of the adapter. *)
Theorem handle_repeatable (self : TFModel) (fs : file_system)
    (body : gmap string Py.value) (others : list (gmap string Py.value)) :
  fst (serve fs [body; body] self)
  = [fst (handle_method fs body self); fst (handle_method fs body self)] /\
  fst (handle_method fs body (snd (serve fs others self)))
  = fst (handle_method fs body self) /\
  snd (serve fs others self) = self.
Proof.
  rewrite !serve_run, !handle_method_run. done.
Qed.

End AdapterFacts.

(** * The adapter at work on concrete inputs *)

#[local] Existing Instance Demo.libraries.

(** ** [int] *)

Example int_128 : Py.int "128" = Some 128.
Proof. reflexivity. Qed.

Example int_space_sign_underscore : Py.int "  -1_000 " = Some (-1000).
Proof. reflexivity. Qed.

Example int_rejects :
  Py.int "" = None /\ Py.int "12.5" = None /\ Py.int "12__8" = None /\
  Py.int "_1" = None /\ Py.int "1_" = None /\ Py.int "+ 1" = None /\
  Py.int "0x10" = None /\ Py.int "wide" = None.
Proof. repeat split; reflexivity. Qed.

(** ** [__init__] *)

Lemma init_reads_sizes_witness :
  (exists self, __init__ ∅ ∅ "mask" "models" = Py.Ok self /\
                IMAGE_WIDTH self = 128 /\ IMAGE_HEIGHT self = 128) /\
  (exists self,
      __init__ {["IMAGE_WIDTH" := "64"; "IMAGE_HEIGHT" := " +3_2 "]} ∅
               "mask" "models" = Py.Ok self /\
      IMAGE_WIDTH self = 64 /\ IMAGE_HEIGHT self = 32).
Proof.
  split.
  - apply (proj1 (init_reads_sizes ∅ ∅ "mask" "models")); reflexivity.
  - apply (proj2 (init_reads_sizes
                    {["IMAGE_WIDTH" := "64"; "IMAGE_HEIGHT" := " +3_2 "]} ∅
                    "mask" "models") "64" " +3_2 " 64 32);
      vm_compute; reflexivity.
Defined.

Lemma init_rejects_bad_size_witness :
  __init__ {["IMAGE_HEIGHT" := "12.5"]} {["labels.json" := "{}"]}
           "mask" "models" = Py.Raise Py.ValueError.
Proof.
  apply (init_rejects_bad_size _ _ "mask" "models" "12.5").
  - right. vm_compute. reflexivity.
  - reflexivity.
Defined.

Lemma init_without_classes_witness :
  classes_unavailable {["IMAGE_WIDTH" := "64"; "classes_map" := "labels.json"]} ∅ /\
  __init__ {["IMAGE_WIDTH" := "64"; "classes_map" := "labels.json"]} ∅
           "mask" "models"
  = Py.Ok {| name := "mask"; model_dir := "models"; IMAGE_WIDTH := 64;
             IMAGE_HEIGHT := 128; classes := Py.VNone; model := None |}.
Proof.
  split; [vm_compute; exact I|].
  apply (init_without_classes _ ∅ "mask" "models" 64 128).
  - vm_compute. exact I.
  - vm_compute. reflexivity.
  - vm_compute. reflexivity.
Defined.

(** A file that is not JSON is swallowed as well. *)
Example init_unparseable_classes :
  __init__ {["classes_map" := "labels.json"]} {["labels.json" := "{'a': 1"]}
           "mask" "models"
  = Py.Ok {| name := "mask"; model_dir := "models"; IMAGE_WIDTH := 128;
             IMAGE_HEIGHT := 128; classes := Py.VNone; model := None |}.
Proof. vm_compute. reflexivity. Qed.

(** ** [preprocess] *)

Lemma preprocess_stacks_batch_witness :
  exists t,
    preprocess Demo.adapter_2x3 {["photo.png" := "colour"]}
      (Demo.body_of [Py.VFile "colour"; Py.VStr "photo.png"; Py.VFile "colour"])
    = Py.Ok {["instances" := [t]]} /\
    np.shape t = [3; 3; 2; 3].
Proof.
  apply (preprocess_stacks_batch Demo.adapter_2x3 {["photo.png" := "colour"]}
           (Demo.body_of [Py.VFile "colour"; Py.VStr "photo.png"; Py.VFile "colour"])
           [Py.VFile "colour"; Py.VStr "photo.png"; Py.VFile "colour"]
           [Demo.colour; Demo.colour; Demo.colour] 3).
  - vm_compute. reflexivity.
  - discriminate.
  - repeat constructor.
  - repeat constructor.
  - simpl. lia.
  - simpl. lia.
  - repeat constructor.
Defined.

(** C1 as stated fails: a grey and a coloured image are both valid, yet
    their arrays differ in the last dimension and cannot be stacked. *)
Lemma preprocess_mixed_bands_raises :
  Forall2 (fun v img => Image_open ∅ v = Py.Ok img)
          [Py.VFile "grey"; Py.VFile "colour"] [Demo.grey; Demo.colour] /\
  preprocess Demo.adapter ∅ (Demo.body_of [Py.VFile "grey"; Py.VFile "colour"])
  = Py.Raise (Py.Exception
      "received: {'instances': [<_io.BytesIO object>, <_io.BytesIO object>]}").
Proof. split; [repeat constructor | vm_compute; reflexivity]. Qed.

(** Sizes below 1 make [resize] fail, whatever the images. *)
Example preprocess_zero_width_raises :
  Py.is_ok (preprocess
              {| name := "mask"; model_dir := "models"; IMAGE_WIDTH := 0;
                 IMAGE_HEIGHT := 128; classes := Py.VNone; model := None |}
              ∅ (Demo.body_of [Py.VFile "grey"])) = false.
Proof. vm_compute. reflexivity. Qed.

Lemma preprocess_without_instances_witness :
  preprocess Demo.adapter ∅ {["images" := Py.VList [Py.VFile "grey"]]}
  = Py.Raise (Py.Exception
      (received {["images" := Py.VList [Py.VFile "grey"]]})).
Proof.
  apply (preprocess_without_instances Demo.adapter ∅).
  vm_compute. reflexivity.
Defined.

(** C3 as stated fails: on the empty body [preprocess] raises, it returns
    no tensor. *)
Lemma preprocess_empty_body_raises :
  (∅ : gmap string Py.value) !! "instances" = None /\
  preprocess Demo.adapter ∅ ∅ = Py.Raise (Py.Exception "received: {}") /\
  ~ exists t, preprocess Demo.adapter ∅ ∅ = Py.Ok {["instances" := [t]]}.
Proof.
  assert (Hrun : preprocess Demo.adapter ∅ ∅
                 = Py.Raise (Py.Exception "received: {}"))
    by (vm_compute; reflexivity).
  split; [reflexivity|]. split; [exact Hrun|].
  intros [t Ht]. rewrite Hrun in Ht. discriminate Ht.
Qed.

Lemma preprocess_failure_is_generic_witness :
  preprocess Demo.adapter ∅
    (Demo.body_of [Py.VFile "grey"; Py.VFile "not an image"; Py.VFile "grey"])
  = Py.Raise (Py.Exception
      (received (Demo.body_of [Py.VFile "grey"; Py.VFile "not an image";
                               Py.VFile "grey"]))) /\
  occurs_in
    (dict_str (Demo.body_of [Py.VFile "grey"; Py.VFile "not an image";
                             Py.VFile "grey"]))
    (received (Demo.body_of [Py.VFile "grey"; Py.VFile "not an image";
                             Py.VFile "grey"])).
Proof.
  apply (preprocess_failure_is_generic Demo.adapter ∅).
  left. exists [Py.VFile "grey"; Py.VFile "not an image"; Py.VFile "grey"].
  split; [vm_compute; reflexivity|].
  apply Exists_cons_tl, Exists_cons_hd. reflexivity.
Defined.

(** A body whose ['instances'] is no sequence fails in the same way. *)
Example preprocess_instances_not_iterable :
  preprocess Demo.adapter ∅ {["instances" := Py.VInt 7]}
  = Py.Raise (Py.Exception "received: {'instances': 7}").
Proof. vm_compute. reflexivity. Qed.

(** ** [predict] and [postprocess] *)

Lemma predict_forwards_witness :
  predict Demo.adapter ∅ = Demo.predictor [].
Proof.
  apply (proj2 (proj2 (predict_forwards Demo.adapter ∅ Demo.predictor eq_refl))).
  reflexivity.
Defined.

(** Before [load], [predict] has no model to call. *)
Example predict_before_load :
  predict {| name := "mask"; model_dir := "models"; IMAGE_WIDTH := 128;
             IMAGE_HEIGHT := 128; classes := Py.VNone; model := None |} ∅
  = Py.Raise Py.AttributeError.
Proof. reflexivity. Qed.

(** The example of the specification: [[0.1, 0.9, 0.3]] gives 0.9. *)
Example postprocess_example :
  postprocess Demo.adapter Demo.scores
  = Py.Ok {["Mask probability" := Demo.f0_9]}.
Proof. vm_compute. reflexivity. Qed.

Lemma postprocess_max_first_row_witness :
  length (row Demo.scores 0) = 3%nat /\
  exists m, postprocess Demo.adapter Demo.scores
            = Py.Ok {["Mask probability" := m]} /\
            is_max (row Demo.scores 0) m.
Proof.
  apply (postprocess_max_first_row Demo.adapter Demo.scores 1 3).
  - reflexivity.
  - split; [repeat constructor; discriminate | reflexivity].
  - lia.
  - lia.
  - repeat constructor.
Defined.

(** C2 as stated fails on an empty first row, where [np.max] raises, and
    on a first row with a NaN, where the payload holds the NaN, which is
    not above 0.5. *)
Lemma postprocess_empty_or_nan_row :
  postprocess Demo.adapter {| np.shape := [1; 0]; np.data := [] |}
  = Py.Raise Py.ValueError /\
  postprocess Demo.adapter
    {| np.shape := [1; 2]; np.data := [S754_nan; Demo.f0_5] |}
  = Py.Ok {["Mask probability" := S754_nan]} /\
  ~ is_max [S754_nan; Demo.f0_5] S754_nan.
Proof.
  split; [vm_compute; reflexivity|]. split; [vm_compute; reflexivity|].
  intros [_ Hmax].
  specialize (Hmax Demo.f0_5 (list_elem_of_further _ _ _ (list_elem_of_here _ _))).
  discriminate Hmax.
Qed.

Lemma postprocess_ignores_classes_witness :
  postprocess Demo.adapter Demo.scores
  = postprocess
      {| name := "mask"; model_dir := "models"; IMAGE_WIDTH := 128;
         IMAGE_HEIGHT := 128;
         classes := Py.VDict [("0", Py.VStr "mask"); ("1", Py.VStr "no mask")];
         model := Some Demo.predictor |}
      Demo.scores.
Proof.
  apply postprocess_ignores_classes; reflexivity.
Defined.

(** ** The pipeline *)

Example handle_example :
  handle Demo.adapter_2x3 ∅ (Demo.body_of [Py.VFile "grey"; Py.VFile "grey"])
  = Py.Ok {["Mask probability" := Demo.f0_9]}.
Proof. vm_compute. reflexivity. Qed.

(** The small instance meets the two assumptions on the libraries, so what
    [preprocess] returns with it is well formed. *)
Lemma demo_decode_wf (content : string) (img : PIL.Image) :
  Demo.decode content = Some img -> image_wf img.
Proof.
  unfold Demo.decode.
  destruct (String.eqb content "grey"); [intros [= <-]; by vm_compute|].
  destruct (String.eqb content "colour"); [intros [= <-]; by vm_compute|].
  done.
Qed.

Lemma demo_resample_length (img : PIL.Image) (size : Z * Z) :
  1 <= fst size -> 1 <= snd size ->
  Z.of_nat (length (Demo.resample img size))
  = fst size * snd size * PIL.bands (PIL.mode_of img).
Proof.
  intros Hw Hh. unfold Demo.resample. rewrite repeat_length.
  pose proof (bands_positive (PIL.mode_of img)). nia.
Qed.

Lemma preprocess_returns_one_tensor_witness :
  exists out,
    preprocess Demo.adapter_2x3 ∅ (Demo.body_of [Py.VFile "grey"; Py.VFile "grey"])
    = Py.Ok out /\
    exists t, out = {["instances" := [t]]} /\ np.wf t.
Proof.
  eexists. split; [vm_compute; reflexivity|].
  apply (@preprocess_returns_one_tensor Demo.libraries
           demo_decode_wf demo_resample_length Demo.adapter_2x3 ∅
           (Demo.body_of [Py.VFile "grey"; Py.VFile "grey"])).
  vm_compute. reflexivity.
Defined.

(** ** More runs *)

Lemma preprocess_success_batch_witness :
  exists items imgs c,
    Py.iter (default (Py.VList [])
               (Demo.body_of [Py.VFile "grey"; Py.VFile "grey"] !! "instances"))
    = Py.Ok items /\
    items <> [] /\
    Forall2 (fun v img => Image_open ∅ v = Py.Ok img) items imgs /\
    Forall (fun img => PIL.bands (PIL.mode_of img) = c) imgs.
Proof.
  eapply (preprocess_success_batch Demo.adapter_2x3 ∅
            (Demo.body_of [Py.VFile "grey"; Py.VFile "grey"])).
  vm_compute. reflexivity.
Defined.

Lemma preprocess_success_tensor_witness :
  exists out,
    preprocess Demo.adapter_2x3 ∅
      (Demo.body_of [Py.VFile "colour"; Py.VFile "colour"]) = Py.Ok out /\
    exists items xs t c,
      Py.iter (default (Py.VList [])
                 (Demo.body_of [Py.VFile "colour"; Py.VFile "colour"] !! "instances"))
      = Py.Ok items /\
      Forall2 (fun v x => prepare Demo.adapter_2x3 ∅ v = Py.Ok x) items xs /\
      out = {["instances" := [t]]} /\
      np.shape t = [Z.of_nat (length items); 3; 2; c] /\
      np.data t = concat (map np.data xs).
Proof.
  eexists. split; [vm_compute; reflexivity|].
  apply (preprocess_success_tensor Demo.adapter_2x3 ∅
           (Demo.body_of [Py.VFile "colour"; Py.VFile "colour"])).
  vm_compute. reflexivity.
Defined.

Lemma preprocess_rejects_small_size_witness :
  preprocess
    {| name := "mask"; model_dir := "models"; IMAGE_WIDTH := 0;
       IMAGE_HEIGHT := 128; classes := Py.VNone; model := None |}
    ∅ (Demo.body_of [Py.VFile "grey"])
  = Py.Raise (Py.Exception (received (Demo.body_of [Py.VFile "grey"]))).
Proof.
  apply preprocess_rejects_small_size.
  - left. simpl. lia.
  - intros items Hit. vm_compute in Hit. injection Hit as <-.
    constructor; [|constructor].
    intros img Himg. vm_compute in Himg. injection Himg as <-.
    discriminate.
Defined.

Lemma preprocess_reads_only_instances_witness :
  exists out,
    preprocess Demo.adapter_2x3 ∅ (Demo.body_of [Py.VFile "grey"]) = Py.Ok out /\
    preprocess Demo.adapter_2x3 ∅
      (<["note" := Py.VStr "urgent"]> (Demo.body_of [Py.VFile "grey"]))
    = Py.Ok out.
Proof.
  eexists. split; [vm_compute; reflexivity|].
  apply (preprocess_reads_only_instances Demo.adapter_2x3 ∅
           (Demo.body_of [Py.VFile "grey"])).
  - vm_compute. reflexivity.
  - vm_compute. reflexivity.
Defined.

Lemma postprocess_payload_is_a_score_witness :
  exists m, postprocess Demo.adapter Demo.scores
            = Py.Ok {["Mask probability" := m]} /\
            m ∈ first_item Demo.scores /\
            (Forall (fun x => np.isnan x = false) (first_item Demo.scores) ->
             forall x, x ∈ first_item Demo.scores -> SFleb x m = true).
Proof.
  apply (postprocess_payload_is_a_score Demo.adapter Demo.scores 1 [3]).
  - reflexivity.
  - lia.
  - vm_compute. discriminate.
Defined.

Lemma postprocess_nan_witness :
  postprocess Demo.adapter
    {| np.shape := [2; 2];
       np.data := [Demo.f0_5; S754_nan; Demo.f0_9; Demo.f0_3] |}
  = Py.Ok {["Mask probability" := S754_nan]}.
Proof.
  apply (postprocess_nan Demo.adapter _ 2 [2]).
  - reflexivity.
  - lia.
  - change (S754_nan ∈ [Demo.f0_5; S754_nan]).
    apply list_elem_of_further, list_elem_of_here.
Defined.

Lemma postprocess_first_item_only_witness :
  postprocess Demo.adapter Demo.scores
  = postprocess Demo.adapter
      {| np.shape := [2; 3];
         np.data := [Demo.f0_1; Demo.f0_9; Demo.f0_3;
                     Demo.f0_5; Demo.f0_5; Demo.f0_5] |}.
Proof.
  apply (postprocess_first_item_only Demo.adapter _ _ 1 2 [3]).
  - reflexivity.
  - reflexivity.
  - lia.
  - lia.
  - reflexivity.
Defined.

Lemma postprocess_errors_witness :
  postprocess Demo.adapter {| np.shape := []; np.data := [Demo.f0_5] |}
  = Py.Raise Py.TypeError /\
  postprocess Demo.adapter {| np.shape := [0; 3]; np.data := [] |}
  = Py.Raise Py.IndexError /\
  postprocess Demo.adapter {| np.shape := [2; 0]; np.data := [] |}
  = Py.Raise Py.ValueError.
Proof.
  split; [|split].
  - apply (proj1 (postprocess_errors Demo.adapter _)). reflexivity.
  - apply (proj1 (proj2 (postprocess_errors Demo.adapter _)) 0 [3]);
      [reflexivity | lia].
  - apply (proj2 (proj2 (postprocess_errors Demo.adapter _)) 2 [0]);
      [reflexivity | lia | reflexivity].
Defined.

Lemma init_fails_only_on_sizes_witness :
  Py.is_ok (__init__ {["IMAGE_WIDTH" := "64"; "classes_map" := "missing.json"]}
                     ∅ "mask" "models") = true.
Proof.
  apply (proj2 (init_fails_only_on_sizes _ ∅ "mask" "models")).
  exists 64, 128. split; vm_compute; reflexivity.
Defined.

Lemma init_loads_classes_witness :
  __init__ {["classes_map" := "labels.json"]} {["labels.json" := "{}"]}
           "mask" "models"
  = Py.Ok {| name := "mask"; model_dir := "models"; IMAGE_WIDTH := 128;
             IMAGE_HEIGHT := 128; classes := Py.VDict []; model := None |}.
Proof.
  apply (init_loads_classes _ _ "mask" "models" "labels.json" "{}");
    vm_compute; reflexivity.
Defined.

Lemma init_reads_numerals_witness :
  exists self,
    __init__ {["IMAGE_WIDTH" := "64"; "IMAGE_HEIGHT" := "096"]} ∅
             "mask" "models" = Py.Ok self /\
    IMAGE_WIDTH self = 64 /\ IMAGE_HEIGHT self = 96.
Proof.
  apply (init_reads_numerals _ ∅ "mask" "models" [6; 4] [0; 9; 6]).
  - discriminate.
  - discriminate.
  - simpl. lia.
  - simpl. lia.
  - repeat constructor; lia.
  - repeat constructor; lia.
  - vm_compute. reflexivity.
  - vm_compute. reflexivity.
Defined.

Lemma predict_after_init_raises_witness :
  predict {| name := "mask"; model_dir := "models"; IMAGE_WIDTH := 128;
             IMAGE_HEIGHT := 128; classes := Py.VNone; model := None |}
          {["instances" := []]}
  = Py.Raise Py.AttributeError.
Proof.
  apply (predict_after_init_raises ∅ ∅ "mask" "models").
  vm_compute. reflexivity.
Defined.

Lemma load_then_predict_witness :
  exists self',
    load {| name := "mask"; model_dir := "models"; IMAGE_WIDTH := 64;
            IMAGE_HEIGHT := 32; classes := Py.VNone; model := None |} ∅
    = Py.Ok self' /\
    name self' = "mask" /\ model_dir self' = "models" /\
    IMAGE_WIDTH self' = 64 /\ IMAGE_HEIGHT self' = 32 /\
    classes self' = Py.VNone /\
    forall data, predict self' data
                 = Demo.predictor (default [] (data !! "instances")).
Proof.
  apply (load_then_predict
           {| name := "mask"; model_dir := "models"; IMAGE_WIDTH := 64;
              IMAGE_HEIGHT := 32; classes := Py.VNone; model := None |}
           ∅ "models.h5" Py.VNone Demo.predictor); reflexivity.
Defined.

Lemma handle_end_to_end_witness :
  exists mm,
    handle Demo.adapter_2x3 ∅ (Demo.body_of [Py.VFile "grey"; Py.VFile "grey"])
    = Py.Ok {["Mask probability" := mm]} /\
    is_max (first_item Demo.scores) mm.
Proof.
  eapply (handle_end_to_end Demo.adapter_2x3 ∅ _ _ Demo.scores Demo.predictor 1 [3]).
  - vm_compute. reflexivity.
  - reflexivity.
  - reflexivity.
  - reflexivity.
  - lia.
  - vm_compute. discriminate.
  - repeat constructor.
Defined.

Lemma handle_rejects_malformed_witness :
  handle {| name := "mask"; model_dir := "models"; IMAGE_WIDTH := 128;
            IMAGE_HEIGHT := 128; classes := Py.VNone; model := None |}
         ∅ (Demo.body_of [Py.VFile "grey"; Py.VInt 7])
  = Py.Raise (Py.Exception (received (Demo.body_of [Py.VFile "grey"; Py.VInt 7]))).
Proof.
  apply (handle_rejects_malformed _ ∅ _ [Py.VFile "grey"; Py.VInt 7]).
  - vm_compute. reflexivity.
  - apply Exists_cons_tl, Exists_cons_hd. reflexivity.
Defined.

Lemma preprocess_rejects_empty_or_non_sequence_witness :
  preprocess Demo.adapter ∅ {["instances" := Py.VInt 3]}
  = Py.Raise (Py.Exception (received {["instances" := Py.VInt 3]})) /\
  preprocess Demo.adapter ∅ (Demo.body_of [])
  = Py.Raise (Py.Exception (received (Demo.body_of []))) /\
  preprocess Demo.adapter ∅ {["instances" := Py.VFile ""]}
  = Py.Raise (Py.Exception (received {["instances" := Py.VFile ""]})).
Proof.
  split; [|split].
  - apply preprocess_rejects_empty_or_non_sequence. left.
    vm_compute. reflexivity.
  - apply preprocess_rejects_empty_or_non_sequence. right.
    vm_compute. reflexivity.
  - apply preprocess_rejects_empty_or_non_sequence. right.
    vm_compute. reflexivity.
Defined.

(** A file object is iterated line by line, and each line is taken for the
    name of a file: a stream that holds the name of an image gives a
    tensor. *)
Example preprocess_file_object_of_names :
  Py.iter (Py.VFile (String.append "a.png" (String "010"%char "b.png")))
  = Py.Ok [Py.VBytes (String.append "a.png" (String "010"%char ""));
           Py.VBytes "b.png"] /\
  Py.is_ok (preprocess Demo.adapter_2x3 {["g.png" := "grey"]}
              {["instances" := Py.VFile "g.png"]}) = true.
Proof. split; vm_compute; reflexivity. Qed.

(** Sizes that [resize] cannot take make every request fail: beyond a C
    [int], and beyond what PIL allocates. *)
Example preprocess_huge_width_raises :
  Py.is_ok (preprocess
              {| name := "mask"; model_dir := "models";
                 IMAGE_WIDTH := 2 ^ 31; IMAGE_HEIGHT := 1;
                 classes := Py.VNone; model := None |}
              ∅ (Demo.body_of [Py.VFile "grey"])) = false /\
  Py.is_ok (preprocess
              {| name := "mask"; model_dir := "models";
                 IMAGE_WIDTH := 2 ^ 31 - 1; IMAGE_HEIGHT := 1;
                 classes := Py.VNone; model := None |}
              ∅ (Demo.body_of [Py.VFile "grey"])) = false.
Proof. split; vm_compute; reflexivity. Qed.

(** On the digit limit of [int]. *)
Example int_digit_limit :
  Py.int (numeral (repeat 1 4300)) = Some (numeral_value (repeat 1 4300)) /\
  Py.int (numeral (repeat 1 4301)) = None.
Proof. split; vm_compute; reflexivity. Qed.

(** Two invocations on the same body, and one after other requests. *)
Example serve_example :
  fst (serve ∅ [Demo.body_of [Py.VFile "grey"]; ∅; Demo.body_of [Py.VFile "grey"]]
             Demo.adapter_2x3)
  = [Py.Ok {["Mask probability" := Demo.f0_9]};
     Py.Raise (Py.Exception "received: {}");
     Py.Ok {["Mask probability" := Demo.f0_9]}].
Proof. vm_compute. reflexivity. Qed.

Lemma handle_propagates_witness :
  handle {| name := "mask"; model_dir := "models"; IMAGE_WIDTH := 2;
            IMAGE_HEIGHT := 3; classes := Py.VNone; model := None |}
         ∅ (Demo.body_of [Py.VFile "grey"])
  = Py.Raise Py.AttributeError /\
  handle {| name := "mask"; model_dir := "models"; IMAGE_WIDTH := 2;
            IMAGE_HEIGHT := 3; classes := Py.VNone;
            model := Some (fun _ => Py.Raise Py.OSError) |}
         ∅ (Demo.body_of [Py.VFile "grey"])
  = Py.Raise Py.OSError.
Proof.
  split.
  - assert (Hpre : exists data,
               preprocess
                 {| name := "mask"; model_dir := "models"; IMAGE_WIDTH := 2;
                    IMAGE_HEIGHT := 3; classes := Py.VNone; model := None |}
                 ∅ (Demo.body_of [Py.VFile "grey"]) = Py.Ok data)
      by (eexists; vm_compute; reflexivity).
    destruct Hpre as [data Hpre].
    exact (proj1 (handle_propagates _ ∅ _ data Hpre) eq_refl).
  - assert (Hpre : exists data,
               preprocess
                 {| name := "mask"; model_dir := "models"; IMAGE_WIDTH := 2;
                    IMAGE_HEIGHT := 3; classes := Py.VNone;
                    model := Some (fun _ => Py.Raise Py.OSError) |}
                 ∅ (Demo.body_of [Py.VFile "grey"]) = Py.Ok data)
      by (eexists; vm_compute; reflexivity).
    destruct Hpre as [data Hpre].
    exact (proj2 (handle_propagates _ ∅ _ data Hpre) _ Py.OSError eq_refl eq_refl).
Defined.
